(** * AWS password policy compliance checker: the evaluation routine

    A shallow embedding of [PasswordPolicyChecker.__init__] and
    [PasswordPolicyChecker.evaluate_policy_compliance] and the properties of
    the evaluation report that follow from them.

    Python values are an inductive type, the [evaluation] dictionary (whose
    keys are fixed) is a record, [self.compliance_standards] is an
    association list in insertion order (the loop iterates over it in that
    order), the policy dictionary is a [gmap], floats are IEEE binary64
    numbers ([spec_float] at precision 53), and statements run in a small
    state-and-exception monad over the checker object and the standard
    output. *)

From Stdlib Require Import ZArith Floats.SpecFloat.
From stdpp Require Import gmap strings list.

#[local] Open Scope string_scope.
#[local] Open Scope list_scope.
#[local] Open Scope Z_scope.

(** ** Python values *)

(** The values a policy entry or a required value can take. *)
Inductive pyval :=
  | PyNone
  | PyBool (b : bool)
  | PyInt (z : Z)
  | PyFloat (f : spec_float)
  | PyStr (s : string).

(** The policies considered: a scalar ([None], a boolean, a number or a
    string) or a dictionary with string keys.  An object of another class
    that has a [get] method of its own is not among them. *)
Inductive pyobj :=
  | Scalar (v : pyval)
  | Dict (d : gmap string pyval).

Inductive exn :=
  | AttributeError
  | TypeError
  | ZeroDivisionError.

Inductive outcome (A : Type) :=
  | Ok (a : A)
  | Raise (e : exn).
Arguments Ok {A} a.
Arguments Raise {A} e.

Definition returns {A} (o : outcome A) : bool :=
  match o with Ok _ => true | Raise _ => false end.

(** ** Binary64 arithmetic *)

Module B64.

Definition prec : Z := 53.
Definition emax : Z := 1024.

(** [float(z)]: the nearest binary64 number, exact when [|z| < 2^53]. *)
Definition of_Z (z : Z) : spec_float := binary_normalize prec emax z 0 false.

Definition mul : spec_float -> spec_float -> spec_float := SFmul prec emax.
Definition div : spec_float -> spec_float -> spec_float := SFdiv prec emax.
Definition compare : spec_float -> spec_float -> option comparison := SFcompare.

(** Exact comparison of an integer with a float, as CPython's
    [float_richcompare] does it (no conversion of the integer). *)
Definition compare_Z (z : Z) (f : spec_float) : option comparison :=
  match f with
  | S754_nan => None
  | S754_infinity s => Some (if s then Gt else Lt)
  | S754_zero _ => Some (z ?= 0)
  | S754_finite s m e =>
      let v := if s then Zneg m else Zpos m in
      Some (if 0 <=? e then z ?= v * 2 ^ e else z * 2 ^ (- e) ?= v)
  end.

(** The integer nearest to [num / den] ([den > 0]), ties to even. *)
Definition div_half_even (num den : Z) : Z :=
  let q := num / den in
  let r := num mod den in
  match 2 * r ?= den with
  | Lt => q
  | Gt => q + 1
  | Eq => if Z.even q then q else q + 1
  end.

(** [round(x, ndigits)] for a float [x] and [0 <= ndigits]: CPython
    rounds the exact value of [x] to [ndigits] decimals, ties to even
    (dtoa, mode 3), and reads the decimal back as the nearest float
    (strtod).  The decimal is [n / 10^ndigits] for an integer [n], and the
    correctly rounded quotient of the two integers is that float. *)
Definition round (x : spec_float) (ndigits : Z) : spec_float :=
  match x with
  | S754_finite s m e =>
      let scale := 10 ^ ndigits in
      let n :=
        if 0 <=? e then Zpos m * 2 ^ e * scale
        else div_half_even (Zpos m * scale) (2 ^ (- e)) in
      match n, scale with
      | Zpos p, Zpos q => div (S754_finite s p 0) (S754_finite false q 0)
      | _, _ => S754_zero s
      end
  | _ => x
  end.

(** The float a decimal literal [n / 10^digits] denotes, such as [88.89]
    for [of_decimal 8889 2]: the quotient of two exactly represented
    integers, rounded once. *)
Definition of_decimal (n digits : Z) : spec_float :=
  div (of_Z n) (of_Z (10 ^ digits)).

End B64.

(** ** Comparisons of Python values *)

(** [bool] is a subclass of [int]: [True] is [1] and [False] is [0]. *)
Inductive num :=
  | NumZ (z : Z)
  | NumF (f : spec_float).

Definition as_num (v : pyval) : option num :=
  match v with
  | PyBool b => Some (NumZ (if b then 1 else 0))
  | PyInt z => Some (NumZ z)
  | PyFloat f => Some (NumF f)
  | _ => None
  end.

Definition num_compare (x y : num) : option comparison :=
  match x, y with
  | NumZ a, NumZ b => Some (a ?= b)
  | NumF f, NumF g => B64.compare f g
  | NumZ a, NumF g => B64.compare_Z a g
  | NumF f, NumZ b => CompOpp <$> B64.compare_Z b f
  end.

(** [a == b]; never raises. *)
Definition py_eq (a b : pyval) : bool :=
  match as_num a, as_num b with
  | Some x, Some y =>
      match num_compare x y with Some Eq => true | _ => false end
  | _, _ =>
      match a, b with
      | PyNone, PyNone => true
      | PyStr s, PyStr t => bool_decide (s = t)
      | _, _ => false
      end
  end.

(** The ordering comparisons raise [TypeError] between values that are not
    both numbers or both strings. *)
Definition py_order (accept : comparison -> bool) (a b : pyval) : outcome bool :=
  match as_num a, as_num b with
  | Some x, Some y =>
      Ok (match num_compare x y with Some c => accept c | None => false end)
  | _, _ =>
      match a, b with
      | PyStr s, PyStr t => Ok (accept (String.compare s t))
      | _, _ => Raise TypeError
      end
  end.

(** [a >= b] *)
Definition py_ge : pyval -> pyval -> outcome bool :=
  py_order (fun c => match c with Lt => false | _ => true end).

(** [a <= b] *)
Definition py_le : pyval -> pyval -> outcome bool :=
  py_order (fun c => match c with Gt => false | _ => true end).

(** [a / b] on integers: the correctly rounded quotient. *)
Definition py_truediv (a b : Z) : outcome spec_float :=
  if b =? 0 then Raise ZeroDivisionError
  else Ok (B64.div (B64.of_Z a) (B64.of_Z b)).

(** [x * k] for a float [x] and an integer [k]. *)
Definition py_mul_int (x : spec_float) (k : Z) : spec_float :=
  B64.mul x (B64.of_Z k).

(** [policy.get(control)]: on a dictionary the entry, [None] when the key
    is absent; a scalar has no attribute [get]. *)
Definition py_get (policy : pyobj) (key : string) : outcome pyval :=
  match policy with
  | Dict d => Ok (default PyNone (d !! key))
  | Scalar _ => Raise AttributeError
  end.

(** ** The checker object and the interpreter state *)

Record PasswordPolicyChecker := {
  profile_name : pyval;
  region : pyval;
  session : pyval;
  iam_client : pyval;
  account_id : pyval;
  compliance_standards : list (string * pyval)
}.

(** The evaluation report: a dictionary with these eight keys. *)
Record evaluation := {
  compliant_controls : list string;
  non_compliant_controls : list string;
  missing_controls : list string;
  compliance_score : pyval;
  soc2_cc6_2_status : string;
  nist_ia_5_status : string;
  overall_status : string;
  policy_type : string
}.

(** What a call can read and write: the object [self] refers to, and the
    lines printed so far. *)
Record world := {
  self_object : PasswordPolicyChecker;
  stdout : list string
}.

(** Statements: state passing, with the state kept when an exception
    unwinds. *)
Definition M (A : Type) : Type := world -> outcome A * world.

Definition ret {A} (a : A) : M A := fun w => (Ok a, w).

Definition bind {A B} (m : M A) (k : A -> M B) : M B :=
  fun w =>
    match m w with
    | (Ok a, w') => k a w'
    | (Raise e, w') => (Raise e, w')
    end.

Definition lift {A} (o : outcome A) : M A := fun w => (o, w).

Definition read_self : M PasswordPolicyChecker := fun w => (Ok (self_object w), w).

Definition print (line : string) : M unit :=
  fun w => (Ok tt, {| self_object := self_object w; stdout := stdout w ++ [line] |}).

(** The monad notations of stdpp: [x ← m; k] and [m;; k]. *)
#[global] Instance M_ret : MRet M := @ret.
#[global] Instance M_bind : MBind M := fun A B k m => bind m k.

(** [for x in xs: acc = body(acc, x)], stopping at the first exception. *)
Fixpoint for_each {A S} (xs : list A) (body : S -> A -> M S) (acc : S) : M S :=
  match xs with
  | [] => ret acc
  | x :: rest => acc' ← body acc x; for_each rest body acc'
  end.

(** ** [__init__] *)

Definition default_region : pyval := PyStr "us-east-1".

Definition __init__ (profile_name region : pyval) : PasswordPolicyChecker := {|
  profile_name := profile_name;
  region := region;
  session := PyNone;
  iam_client := PyNone;
  account_id := PyNone;
  compliance_standards := [
    ("minimum_password_length", PyInt 12);
    ("require_symbols", PyBool true);
    ("require_numbers", PyBool true);
    ("require_uppercase", PyBool true);
    ("require_lowercase", PyBool true);
    ("max_password_age", PyInt 90);
    ("password_reuse_prevention", PyInt 12);
    ("allow_users_to_change_password", PyBool true);
    ("hard_expiry", PyBool false)
  ]
|}.

(** ** [evaluate_policy_compliance] *)

Definition initial_evaluation : evaluation := {|
  compliant_controls := [];
  non_compliant_controls := [];
  missing_controls := [];
  compliance_score := PyInt 0;
  soc2_cc6_2_status := "UNKNOWN";
  nist_ia_5_status := "UNKNOWN";
  overall_status := "UNKNOWN";
  policy_type := "unknown"
|}.

(** The assignments to one key of the report. *)
Definition set_compliant_controls (l : list string) (ev : evaluation) : evaluation :=
  {| compliant_controls := l;
     non_compliant_controls := non_compliant_controls ev;
     missing_controls := missing_controls ev;
     compliance_score := compliance_score ev;
     soc2_cc6_2_status := soc2_cc6_2_status ev;
     nist_ia_5_status := nist_ia_5_status ev;
     overall_status := overall_status ev;
     policy_type := policy_type ev |}.

Definition set_non_compliant_controls (l : list string) (ev : evaluation) : evaluation :=
  {| compliant_controls := compliant_controls ev;
     non_compliant_controls := l;
     missing_controls := missing_controls ev;
     compliance_score := compliance_score ev;
     soc2_cc6_2_status := soc2_cc6_2_status ev;
     nist_ia_5_status := nist_ia_5_status ev;
     overall_status := overall_status ev;
     policy_type := policy_type ev |}.

Definition set_missing_controls (l : list string) (ev : evaluation) : evaluation :=
  {| compliant_controls := compliant_controls ev;
     non_compliant_controls := non_compliant_controls ev;
     missing_controls := l;
     compliance_score := compliance_score ev;
     soc2_cc6_2_status := soc2_cc6_2_status ev;
     nist_ia_5_status := nist_ia_5_status ev;
     overall_status := overall_status ev;
     policy_type := policy_type ev |}.

Definition set_compliance_score (v : pyval) (ev : evaluation) : evaluation :=
  {| compliant_controls := compliant_controls ev;
     non_compliant_controls := non_compliant_controls ev;
     missing_controls := missing_controls ev;
     compliance_score := v;
     soc2_cc6_2_status := soc2_cc6_2_status ev;
     nist_ia_5_status := nist_ia_5_status ev;
     overall_status := overall_status ev;
     policy_type := policy_type ev |}.

Definition set_overall_status (s : string) (ev : evaluation) : evaluation :=
  {| compliant_controls := compliant_controls ev;
     non_compliant_controls := non_compliant_controls ev;
     missing_controls := missing_controls ev;
     compliance_score := compliance_score ev;
     soc2_cc6_2_status := soc2_cc6_2_status ev;
     nist_ia_5_status := nist_ia_5_status ev;
     overall_status := s;
     policy_type := policy_type ev |}.

Inductive direction :=
  | AtLeast
  | AtMost.

(** Modelled from the spec: the body of the method [_is_control_compliant]
    is not among the sources.  The spec gives its rule: a control whose
    required value is a boolean is compliant when the current value equals
    the required one; a numeric control is compared with its required value
    by [>=] or by [<=], and which of the two is left open, so the direction
    of each control is a parameter. *)
Definition _is_control_compliant (dir : string -> direction)
    (self : PasswordPolicyChecker) (control : string)
    (current_value required_value : pyval) : outcome bool :=
  match required_value with
  | PyBool _ => Ok (py_eq current_value required_value)
  | _ =>
      match dir control with
      | AtLeast => py_ge current_value required_value
      | AtMost => py_le current_value required_value
      end
  end.

Section Evaluator.

(** The method [self._is_control_compliant]: it reads its arguments and
    the checker, and answers or raises. *)
Variable is_control_compliant :
  PasswordPolicyChecker -> string -> pyval -> pyval -> outcome bool.

(** The body of the loop over [self.compliance_standards.items()]; the
    accumulator is the report and [compliant_count]. *)
Definition classify_control (self : PasswordPolicyChecker) (policy : pyobj)
    (acc : evaluation * Z) (item : string * pyval) : M (evaluation * Z) :=
  let '(ev, compliant_count) := acc in
  let '(control, required_value) := item in
  current_value ← lift (py_get policy control);
  match current_value with
  | PyNone =>
      ret (set_missing_controls (missing_controls ev ++ [control]) ev,
           compliant_count)
  | _ =>
      ok ← lift (is_control_compliant self control current_value required_value);
      if ok : bool then
        ret (set_compliant_controls (compliant_controls ev ++ [control]) ev,
             compliant_count + 1)
      else
        ret (set_non_compliant_controls (non_compliant_controls ev ++ [control]) ev,
             compliant_count)
  end.

Definition classify_controls (self : PasswordPolicyChecker) (policy : pyobj)
    : M (evaluation * Z) :=
  for_each (compliance_standards self) (classify_control self policy)
           (initial_evaluation, 0).

Definition evaluate_policy_compliance (policy : pyobj) : M evaluation :=
  print "Evaluating password policy against compliance standards...";;
  self ← read_self;
  match policy with
  | Scalar PyNone =>
      let evaluation := initial_evaluation in
      let evaluation :=
        set_missing_controls (fst <$> compliance_standards self) evaluation in
      let evaluation := set_overall_status "NON_COMPLIANT" evaluation in
      ret evaluation
  | _ =>
      let total_controls := Z.of_nat (length (compliance_standards self)) in
      '(evaluation, compliant_count) ← classify_controls self policy;
      ratio ← lift (py_truediv compliant_count total_controls);
      let score := PyFloat (B64.round (py_mul_int ratio 100) 2) in
      let evaluation := set_compliance_score score evaluation in
      at_least_90 ← lift (py_ge (compliance_score evaluation) (PyInt 90));
      let evaluation :=
        set_overall_status
          (if at_least_90 : bool then "COMPLIANT" else "NON_COMPLIANT")
          evaluation in
      ret evaluation
  end.

End Evaluator.

(** ** The loop as a classification *)

Inductive verdict :=
  | Compliant
  | NonCompliant
  | Missing.

#[global] Instance verdict_eq_dec : EqDecision verdict.
Proof. solve_decision. Defined.

#[global] Instance exn_eq_dec : EqDecision exn.
Proof. solve_decision. Defined.

#[global] Instance outcome_eq_dec {A} `{EqDecision A} : EqDecision (outcome A).
Proof. solve_decision. Defined.

(** The report after one more control has been filed under a verdict. *)
Definition file_control (v : verdict) (control : string)
    (acc : evaluation * Z) : evaluation * Z :=
  let '(ev, compliant_count) := acc in
  match v with
  | Compliant =>
      (set_compliant_controls (compliant_controls ev ++ [control]) ev,
       compliant_count + 1)
  | NonCompliant =>
      (set_non_compliant_controls (non_compliant_controls ev ++ [control]) ev,
       compliant_count)
  | Missing =>
      (set_missing_controls (missing_controls ev ++ [control]) ev,
       compliant_count)
  end.

Section Verdicts.

Variable is_control_compliant :
  PasswordPolicyChecker -> string -> pyval -> pyval -> outcome bool.
Variable self : PasswordPolicyChecker.
Variable d : gmap string pyval.

(** The branch one iteration of the loop takes for an item of the
    baseline, or the exception the helper raises there. *)
Definition verdict_of (item : string * pyval) : outcome verdict :=
  match default PyNone (d !! item.1) with
  | PyNone => Ok Missing
  | current_value =>
      match is_control_compliant self item.1 current_value item.2 with
      | Ok true => Ok Compliant
      | Ok false => Ok NonCompliant
      | Raise e => Raise e
      end
  end.

(** The helper raises on no entry of the policy it is asked about. *)
Definition helper_answers : bool :=
  forallb (fun item => returns (verdict_of item)) (compliance_standards self).

(** The controls of [items] filed under [v], in the order of [items]. *)
Definition controls_with (v : verdict) (items : list (string * pyval))
    : list string :=
  fst <$> filter (fun item => verdict_of item = Ok v) items.

End Verdicts.

(** A statement that leaves the state alone. *)
Definition pure_stmt {A} (m : M A) : Prop := ∀ w, (m w).2 = w.

(** ** The report of a run, the baseline and sample inputs *)

Definition greeting : string :=
  "Evaluating password policy against compliance standards...".

(** The state once the first line of the method has run. *)
Definition after_print (w : world) : world :=
  {| self_object := self_object w; stdout := stdout w ++ [greeting] |}.

Definition baseline_world (profile_name region : pyval) (out : list string) : world :=
  {| self_object := __init__ profile_name region; stdout := out |}.

Definition baseline_controls : list string := [
  "minimum_password_length"; "require_symbols"; "require_numbers";
  "require_uppercase"; "require_lowercase"; "max_password_age";
  "password_reuse_prevention"; "allow_users_to_change_password";
  "hard_expiry"
].

Definition is_bool_or_int (v : pyval) : bool :=
  match v with PyBool _ | PyInt _ => true | _ => false end.

(** With [k] of the nine controls compliant, [10000 k / 9] rounded to an
    integer: the score in hundredths. *)
Definition hundredths (k : nat) : Z := B64.div_half_even (Z.of_nat k * 10000) 9.

(** The helper with every numeric control read as a minimum. *)
Definition minimum_helper :
    PasswordPolicyChecker -> string -> pyval -> pyval -> outcome bool :=
  _is_control_compliant (fun _ => AtLeast).

(** A policy that repeats the baseline. *)
Definition matching_policy : gmap string pyval :=
  list_to_map (compliance_standards (__init__ PyNone default_region)).

(** The same with passwords that expire hard. *)
Definition hard_expiry_policy : gmap string pyval :=
  <["hard_expiry" := PyBool true]> matching_policy.

Definition hard_expiry_report : evaluation := {|
  compliant_controls := [
    "minimum_password_length"; "require_symbols"; "require_numbers";
    "require_uppercase"; "require_lowercase"; "max_password_age";
    "password_reuse_prevention"; "allow_users_to_change_password"
  ];
  non_compliant_controls := ["hard_expiry"];
  missing_controls := [];
  compliance_score := PyFloat (B64.of_decimal 8889 2);
  soc2_cc6_2_status := "UNKNOWN";
  nist_ia_5_status := "UNKNOWN";
  overall_status := "NON_COMPLIANT";
  policy_type := "unknown"
|}.

Definition sample_world : world := baseline_world PyNone default_region [].

(** A checker with a tenth control, to reach the threshold itself: nine of
    ten is [90.0], which is ['COMPLIANT']. *)
Definition ten_controls : PasswordPolicyChecker := {|
  profile_name := PyNone;
  region := default_region;
  session := PyNone;
  iam_client := PyNone;
  account_id := PyNone;
  compliance_standards :=
    compliance_standards (__init__ PyNone default_region)
    ++ [("expire_passwords", PyBool true)]
|}.

(** ** The statements after the loop *)

(** The score and the status, from the report and the count the loop
    leaves and from [total_controls]. *)
Definition score_and_status (total_controls : Z) (ev : evaluation)
    (compliant_count : Z) : outcome evaluation :=
  match py_truediv compliant_count total_controls with
  | Ok ratio =>
      let evaluation :=
        set_compliance_score (PyFloat (B64.round (py_mul_int ratio 100) 2)) ev in
      match py_ge (compliance_score evaluation) (PyInt 90) with
      | Ok at_least_90 =>
          Ok (set_overall_status
                (if at_least_90 : bool then "COMPLIANT" else "NON_COMPLIANT")
                evaluation)
      | Raise e => Raise e
      end
  | Raise e => Raise e
  end.

(** The report of the early return against the baseline. *)
Definition all_missing_report : evaluation :=
  set_overall_status "NON_COMPLIANT"
    (set_missing_controls baseline_controls initial_evaluation).

(** A checker whose [compliance_standards] has been emptied after
    construction (the attribute is an ordinary dictionary). *)
Definition no_controls : PasswordPolicyChecker := {|
  profile_name := PyNone;
  region := default_region;
  session := PyNone;
  iam_client := PyNone;
  account_id := PyNone;
  compliance_standards := []
|}.

(** A helper that raises whenever it is asked. *)
Definition raising_helper :
    PasswordPolicyChecker -> string -> pyval -> pyval -> outcome bool :=
  fun _ _ _ _ => Raise TypeError.

(** A policy with keys the baseline does not know, and one baseline key
    mapped to [None]. *)
Definition foreign_policy : gmap string pyval :=
  <["MinimumPasswordLength" := PyInt 14]>
    (<["require_symbols" := PyNone]> (<["ExpirePasswords" := PyBool true]> ∅)).

(** The report on [matching_policy]. *)
Definition matching_report : evaluation := {|
  compliant_controls := baseline_controls;
  non_compliant_controls := [];
  missing_controls := [];
  compliance_score := PyFloat (B64.of_Z 100);
  soc2_cc6_2_status := "UNKNOWN";
  nist_ia_5_status := "UNKNOWN";
  overall_status := "COMPLIANT";
  policy_type := "unknown"
|}.

(** A policy with a string where a number is required. *)
Definition malformed_policy : gmap string pyval :=
  <["max_password_age" := PyStr "ninety"]> matching_policy.

(** * Properties *)

(** ** What the loop computes *)

Section Classification.

Variable is_control_compliant :
  PasswordPolicyChecker -> string -> pyval -> pyval -> outcome bool.
Variable self : PasswordPolicyChecker.
Variable d : gmap string pyval.

#[local] Abbreviation verdict_at := (verdict_of is_control_compliant self d).
#[local] Abbreviation filed := (controls_with is_control_compliant self d).

Lemma classify_control_verdict acc item w :
  classify_control is_control_compliant self (Dict d) acc item w =
    (match verdict_at item with
     | Ok v => Ok (file_control v item.1 acc)
     | Raise e => Raise e
     end, w).
Proof.
  destruct acc as [ev n], item as [control required].
  unfold classify_control, verdict_of, mbind, M_bind, bind, lift; simpl.
  destruct (default PyNone (d !! control)) eqn:Hcur; try reflexivity;
    destruct (is_control_compliant self control _ required) as [[|]|];
    reflexivity.
Qed.

Lemma for_each_raises items : ∀ acc w,
  forallb (fun item => returns (verdict_at item)) items = false →
  ∃ e, for_each items (classify_control is_control_compliant self (Dict d)) acc w
       = (Raise e, w).
Proof.
  induction items as [|item items IH]; intros acc w H; simpl in H; [done|].
  simpl. unfold mbind, M_bind, bind. rewrite classify_control_verdict.
  destruct (verdict_at item) as [v|e]; simpl in H; [|by eexists].
  apply IH, H.
Qed.

Lemma for_each_returns items : ∀ acc w,
  forallb (fun item => returns (verdict_at item)) items = true →
  ∃ acc',
    for_each items (classify_control is_control_compliant self (Dict d)) acc w
      = (Ok acc', w)
    ∧ compliant_controls acc'.1
        = compliant_controls acc.1 ++ filed Compliant items
    ∧ non_compliant_controls acc'.1
        = non_compliant_controls acc.1 ++ filed NonCompliant items
    ∧ missing_controls acc'.1
        = missing_controls acc.1 ++ filed Missing items
    ∧ acc'.2 = acc.2 + Z.of_nat (length (filed Compliant items))
    ∧ compliance_score acc'.1 = compliance_score acc.1
    ∧ soc2_cc6_2_status acc'.1 = soc2_cc6_2_status acc.1
    ∧ nist_ia_5_status acc'.1 = nist_ia_5_status acc.1
    ∧ overall_status acc'.1 = overall_status acc.1
    ∧ policy_type acc'.1 = policy_type acc.1.
Proof.
  unfold controls_with.
  induction items as [|item items IH]; intros acc w H.
  - exists acc. simpl. rewrite !app_nil_r, Z.add_0_r. by repeat split.
  - simpl in H. apply andb_prop in H as [Hitem Hrest].
    simpl for_each. unfold mbind, M_bind, bind.
    rewrite classify_control_verdict.
    destruct (verdict_at item) as [v|e] eqn:Hv; [|done].
    destruct (IH (file_control v item.1 acc) w Hrest)
      as (acc' & -> & Hc & Hn & Hm & Hcount & Hs & H1 & H2 & H3 & H4).
    exists acc'. split; [done|].
    rewrite Hc, Hn, Hm, Hcount, Hs, H1, H2, H3, H4.
    rewrite !filter_cons, Hv.
    destruct acc as [ev n].
    destruct v; simpl; repeat case_decide; try congruence;
      rewrite ?fmap_cons, ?length_cons, ?length_fmap, <- ?app_assoc;
      simpl; repeat split; try done; lia.
Qed.

Lemma elem_of_controls_with v items control :
  control ∈ filed v items ↔
  ∃ required, (control, required) ∈ items ∧ verdict_at (control, required) = Ok v.
Proof.
  unfold controls_with. rewrite list_elem_of_fmap. split.
  - intros ([c r] & -> & Hin). apply list_elem_of_filter in Hin as [Hv Hin].
    by exists r.
  - intros (r & Hin & Hv). exists (control, r). split; [done|].
    by apply list_elem_of_filter.
Qed.

Lemma controls_with_length items :
  forallb (fun item => returns (verdict_at item)) items = true →
  (length (filed Compliant items)
   + length (filed NonCompliant items)
   + length (filed Missing items) = length items)%nat.
Proof.
  unfold controls_with. induction items as [|item items IH]; [done|].
  simpl. intros [Hitem Hrest]%andb_prop. specialize (IH Hrest).
  rewrite !filter_cons.
  destruct (verdict_at item) as [[]|]; [..|done];
    repeat case_decide; try congruence;
    rewrite ?fmap_cons, ?length_cons; lia.
Qed.

Lemma unique_required (items : list (string * pyval)) control r1 r2 :
  NoDup (items.*1) → (control, r1) ∈ items → (control, r2) ∈ items → r1 = r2.
Proof.
  induction items as [|[c r] items IH]; intros Hnd H1 H2.
  - by apply elem_of_nil in H1.
  - apply NoDup_cons in Hnd as [Hfresh Hnd].
    apply elem_of_cons in H1 as [H1|H1], H2 as [H2|H2].
    + congruence.
    + exfalso. apply Hfresh. injection H1 as <- <-.
      by apply (list_elem_of_fmap_2 fst) in H2.
    + exfalso. apply Hfresh. injection H2 as <- <-.
      by apply (list_elem_of_fmap_2 fst) in H1.
    + by apply IH.
Qed.

Lemma controls_with_functional items control v1 v2 :
  NoDup (items.*1) →
  control ∈ filed v1 items → control ∈ filed v2 items →
  v1 = v2.
Proof.
  intros Hnd (r1 & Hin1 & Hv1)%elem_of_controls_with
             (r2 & Hin2 & Hv2)%elem_of_controls_with.
  rewrite (unique_required items control r1 r2 Hnd Hin1 Hin2) in Hv1.
  congruence.
Qed.

Lemma controls_with_total items control :
  forallb (fun item => returns (verdict_at item)) items = true →
  control ∈ items.*1 → ∃ v, control ∈ filed v items.
Proof.
  intros Hall ([c r] & -> & Hin)%list_elem_of_fmap.
  rewrite forallb_forall in Hall.
  specialize (Hall (c, r)). rewrite <- list_elem_of_In in Hall.
  specialize (Hall Hin).
  destruct (verdict_at (c, r)) as [v|] eqn:Hv; [|done].
  exists v. apply elem_of_controls_with. by exists r.
Qed.

Lemma controls_with_missing items control :
  control ∈ items.*1 → default PyNone (d !! control) = PyNone →
  control ∈ filed Missing items.
Proof.
  intros ([c r] & -> & Hin)%list_elem_of_fmap Hnone.
  apply elem_of_controls_with. exists r. split; [done|].
  unfold verdict_of. simpl in *. by rewrite Hnone.
Qed.

Lemma controls_with_all_compliant items :
  Forall (fun item => verdict_at item = Ok Compliant) items →
  forallb (fun item => returns (verdict_at item)) items = true
  ∧ filed Compliant items = items.*1
  ∧ filed NonCompliant items = []
  ∧ filed Missing items = [].
Proof.
  unfold controls_with. induction 1 as [|item items Hitem _ IH]; [done|].
  destruct IH as (Hall & Hc & Hn & Hm).
  cbn [forallb]. rewrite !filter_cons, Hitem, Hall.
  repeat case_decide; try congruence.
  rewrite fmap_cons, Hc, Hn, Hm. done.
Qed.

End Classification.

(** ** Statements that leave the state alone *)

Lemma pure_ret {A} (a : A) : pure_stmt (ret a).
Proof. done. Qed.

Lemma pure_lift {A} (o : outcome A) : pure_stmt (lift o).
Proof. done. Qed.

Lemma pure_read_self : pure_stmt read_self.
Proof. done. Qed.

Lemma pure_bind {A B} (m : M A) (k : A → M B) :
  pure_stmt m → (∀ a, pure_stmt (k a)) → pure_stmt (a ← m; k a).
Proof.
  intros Hm Hk w. unfold mbind, M_bind, bind.
  specialize (Hm w). destruct (m w) as [[a|e] w']; simpl in Hm; subst w';
    [apply Hk | done].
Qed.

Lemma pure_for_each {A S} (body : S → A → M S) (xs : list A) :
  (∀ acc x, pure_stmt (body acc x)) → ∀ acc, pure_stmt (for_each xs body acc).
Proof.
  intros Hbody. induction xs as [|x xs IH]; intros acc; [apply pure_ret|].
  simpl. apply pure_bind; [apply Hbody | apply IH].
Qed.

(** ** The report of a run *)

Section Report.

Variable is_control_compliant :
  PasswordPolicyChecker -> string -> pyval -> pyval -> outcome bool.

#[local] Abbreviation evaluate := (evaluate_policy_compliance is_control_compliant).
#[local] Abbreviation answers := (helper_answers is_control_compliant).
#[local] Abbreviation filed := (controls_with is_control_compliant).

Lemma classify_control_pure self policy acc item :
  pure_stmt (classify_control is_control_compliant self policy acc item).
Proof.
  destruct acc as [ev n], item as [control required]. unfold classify_control.
  apply pure_bind; [apply pure_lift|]. intros current_value.
  destruct current_value; try apply pure_ret;
    (apply pure_bind; [apply pure_lift|]; intros []; apply pure_ret).
Qed.

Lemma classify_controls_pure self policy :
  pure_stmt (classify_controls is_control_compliant self policy).
Proof. apply pure_for_each, classify_control_pure. Qed.

(** A call prints its line and changes nothing else, whatever [policy]
    is and whether or not it raises. *)
Lemma evaluate_frame policy w : (evaluate policy w).2 = after_print w.
Proof.
  unfold evaluate_policy_compliance.
  unfold mbind at 1, M_bind at 1, bind at 1, print at 1.
  change {| self_object := self_object w; stdout := _ |} with (after_print w).
  generalize (after_print w). apply pure_bind; [done|]. intros self.
  assert (pure_stmt (
    '(evaluation, compliant_count) ←
        classify_controls is_control_compliant self policy;
    ratio ← lift (py_truediv compliant_count
                    (Z.of_nat (length (compliance_standards self))));
    at_least_90 ← lift (py_ge
        (compliance_score
           (set_compliance_score
              (PyFloat (B64.round (py_mul_int ratio 100) 2)) evaluation))
        (PyInt 90));
    ret (set_overall_status
           (if at_least_90 : bool then "COMPLIANT" else "NON_COMPLIANT")
           (set_compliance_score
              (PyFloat (B64.round (py_mul_int ratio 100) 2)) evaluation))))
    as Hrun.
  { apply pure_bind; [apply classify_controls_pure|]. intros [ev n].
    apply pure_bind; [apply pure_lift|]. intros ratio.
    apply pure_bind; [apply pure_lift|]. intros b. apply pure_ret. }
  destruct policy as [[]|dict]; try exact Hrun. apply pure_ret.
Qed.

(** The early return. *)
Lemma evaluate_none w :
  evaluate (Scalar PyNone) w =
    (Ok (set_overall_status "NON_COMPLIANT"
           (set_missing_controls (fst <$> compliance_standards (self_object w))
              initial_evaluation)),
     after_print w).
Proof. reflexivity. Qed.

(** A scalar other than [None]: the first [policy.get] raises, unless
    there is no control to look up, in which case the division does. *)
Lemma evaluate_scalar_raises v w :
  v ≠ PyNone → ∃ e, evaluate (Scalar v) w = (Raise e, after_print w).
Proof.
  intros Hv. unfold evaluate_policy_compliance, classify_controls.
  unfold mbind, M_bind, bind, print, read_self. cbn [self_object].
  change {| self_object := self_object w; stdout := _ |} with (after_print w).
  destruct (compliance_standards (self_object w)) as [|[c r] items];
    destruct v; try done; by eexists.
Qed.

(** A dictionary on which the helper raises. *)
Lemma evaluate_dict_raises d w :
  answers (self_object w) d = false →
  ∃ e, evaluate (Dict d) w = (Raise e, after_print w).
Proof.
  intros Hraise. unfold evaluate_policy_compliance, classify_controls.
  unfold mbind at 1 2, M_bind at 1 2, bind at 1 2, print, read_self.
  cbn [self_object].
  change {| self_object := self_object w; stdout := _ |} with (after_print w).
  unfold mbind at 1, M_bind at 1, bind at 1.
  destruct (for_each_raises is_control_compliant (self_object w) d
              (compliance_standards (self_object w))
              (initial_evaluation, 0) (after_print w) Hraise) as [e ->].
  by exists e.
Qed.

(** A dictionary on which the helper answers. *)
Lemma evaluate_dict d w :
  compliance_standards (self_object w) ≠ [] →
  answers (self_object w) d = true →
  ∃ ev ratio at_least_90,
    classify_controls is_control_compliant (self_object w) (Dict d) (after_print w)
      = (Ok (ev, Z.of_nat (length (compliant_controls ev))), after_print w)
    ∧ compliant_controls ev
        = filed (self_object w) d Compliant (compliance_standards (self_object w))
    ∧ non_compliant_controls ev
        = filed (self_object w) d NonCompliant (compliance_standards (self_object w))
    ∧ missing_controls ev
        = filed (self_object w) d Missing (compliance_standards (self_object w))
    ∧ soc2_cc6_2_status ev = "UNKNOWN"
    ∧ nist_ia_5_status ev = "UNKNOWN"
    ∧ policy_type ev = "unknown"
    ∧ py_truediv (Z.of_nat (length (compliant_controls ev)))
                 (Z.of_nat (length (compliance_standards (self_object w))))
        = Ok ratio
    ∧ py_ge (PyFloat (B64.round (py_mul_int ratio 100) 2)) (PyInt 90)
        = Ok at_least_90
    ∧ evaluate (Dict d) w =
        (Ok (set_overall_status
               (if at_least_90 then "COMPLIANT" else "NON_COMPLIANT")
               (set_compliance_score
                  (PyFloat (B64.round (py_mul_int ratio 100) 2)) ev)),
         after_print w).
Proof.
  intros Hnonempty Hanswers.
  destruct (for_each_returns is_control_compliant (self_object w) d
              (compliance_standards (self_object w))
              (initial_evaluation, 0) (after_print w) Hanswers)
    as ([ev n] & Hrun & Hc & Hn & Hm & Hcount & _ & Hsoc & Hnist & _ & Htype).
  simpl in Hc, Hn, Hm, Hcount, Hsoc, Hnist, Htype.
  assert (n = Z.of_nat (length (compliant_controls ev))) as ->
    by (rewrite Hc; exact Hcount).
  assert (∃ ratio,
    py_truediv (Z.of_nat (length (compliant_controls ev)))
               (Z.of_nat (length (compliance_standards (self_object w))))
      = Ok ratio) as [ratio Hratio].
  { unfold py_truediv.
    destruct (Z.eqb_spec
      (Z.of_nat (length (compliance_standards (self_object w)))) 0) as [H0|_];
      [|by eexists].
    destruct (compliance_standards (self_object w)); [done | simpl in H0; lia]. }
  assert (∃ b, py_ge (PyFloat (B64.round (py_mul_int ratio 100) 2)) (PyInt 90)
                 = Ok b) as [b Hb] by (by eexists).
  exists ev, ratio, b. repeat split; try done.
  unfold evaluate_policy_compliance.
  unfold mbind at 1 2, M_bind at 1 2, bind at 1 2, print, read_self.
  cbn [self_object].
  change {| self_object := self_object w; stdout := _ |} with (after_print w).
  unfold mbind at 1, M_bind at 1, bind at 1.
  unfold classify_controls. rewrite Hrun.
  unfold mbind at 1, M_bind at 1, bind at 1, lift at 1. rewrite Hratio.
  unfold mbind, M_bind, bind, lift, ret.
  cbn [compliance_score set_compliance_score]. by rewrite Hb.
Qed.

End Report.

(** ** The baseline *)

Lemma baseline_names profile_name region :
  fst <$> compliance_standards (__init__ profile_name region) = baseline_controls.
Proof. reflexivity. Qed.

Lemma baseline_names_NoDup : NoDup baseline_controls.
Proof. apply (bool_decide_unpack _). vm_compute. exact I. Qed.

Lemma baseline_keys_NoDup profile_name region :
  NoDup ((compliance_standards (__init__ profile_name region)).*1).
Proof. rewrite baseline_names. apply baseline_names_NoDup. Qed.

Lemma baseline_size profile_name region :
  length (compliance_standards (__init__ profile_name region)) = 9%nat.
Proof. reflexivity. Qed.

(** ** The ten scores the baseline allows

    With [k] of the nine controls compliant, the float pipeline
    [round((k / 9) * 100, 2)] yields the float nearest to [n / 100], where
    [n] is [10000 k / 9] rounded to an integer: the binary rounding errors
    of the division and the product never move the decimal rounding. *)

Lemma baseline_score_table (k : nat) ratio :
  (k ≤ 9)%nat →
  py_truediv (Z.of_nat k) 9 = Ok ratio →
  B64.round (py_mul_int ratio 100) 2 = B64.of_decimal (hundredths k) 2
  ∧ 0 ≤ hundredths k ≤ 10000
  ∧ py_ge (PyFloat (B64.round (py_mul_int ratio 100) 2)) (PyInt 0) = Ok true
  ∧ py_le (PyFloat (B64.round (py_mul_int ratio 100) 2)) (PyInt 100) = Ok true
  ∧ py_ge (PyFloat (B64.round (py_mul_int ratio 100) 2)) (PyInt 90)
      = Ok (bool_decide (k = 9%nat)).
Proof.
  intros Hk Hratio.
  do 10 (destruct k as [|k];
         [injection Hratio as <-; vm_compute; repeat split; congruence|]).
  lia.
Qed.

Example scores_in_hundredths :
  hundredths <$> [0; 1; 2; 3; 4; 5; 6; 7; 8; 9]%nat
  = [0; 1111; 2222; 3333; 4444; 5556; 6667; 7778; 8889; 10000].
Proof. reflexivity. Qed.

Section BaselineClaims.

Variable is_control_compliant :
  PasswordPolicyChecker -> string -> pyval -> pyval -> outcome bool.
Variables profile_name region : pyval.
Variable out : list string.

#[local] Abbreviation evaluate := (evaluate_policy_compliance is_control_compliant).
#[local] Abbreviation self := (__init__ profile_name region).
#[local] Abbreviation w0 := (baseline_world profile_name region out).

(** C3: called with [policy = None], the method returns (it does not
    raise) a report whose [missing_controls] holds the nine baseline
    control names, whose [compliance_score] is [0] and whose
    [overall_status] is ['NON_COMPLIANT']. *)
Theorem none_policy_all_missing :
  ∃ report,
    evaluate (Scalar PyNone) w0 = (Ok report, after_print w0)
    ∧ missing_controls report = baseline_controls
    ∧ length (missing_controls report) = 9%nat
    ∧ compliance_score report = PyInt 0
    ∧ overall_status report = "NON_COMPLIANT".
Proof. eexists. rewrite evaluate_none. by repeat split. Qed.

(** C8: the baseline built by [__init__] is one fixed mapping (the same
    for every profile and region) of nine distinct control names to
    boolean or integer values, and a call of the method, on any policy
    and whether it returns or raises, leaves it as it was. *)
Theorem baseline_fixed_and_unchanged (policy : pyobj) :
  compliance_standards self
    = compliance_standards (__init__ PyNone default_region)
  ∧ length (compliance_standards self) = 9%nat
  ∧ NoDup (fst <$> compliance_standards self)
  ∧ forallb is_bool_or_int (snd <$> compliance_standards self) = true
  ∧ compliance_standards (self_object (evaluate policy w0).2)
      = compliance_standards (self_object w0).
Proof.
  repeat split; try reflexivity.
  - apply baseline_names_NoDup.
  - by rewrite evaluate_frame.
Qed.

End BaselineClaims.

(** C9: called with [policy = None], the method leaves [soc2_cc6_2_status]
    and [nist_ia_5_status] at ['UNKNOWN'], [policy_type] at ['unknown'] and
    the compliant and non-compliant lists empty: the report is the initial
    one with only [missing_controls] and [overall_status] assigned. *)
Theorem none_policy_touches_two_keys
    (is_control_compliant :
       PasswordPolicyChecker -> string -> pyval -> pyval -> outcome bool)
    (w : world) :
  ∃ report,
    evaluate_policy_compliance is_control_compliant (Scalar PyNone) w
      = (Ok report, after_print w)
    ∧ soc2_cc6_2_status report = "UNKNOWN"
    ∧ nist_ia_5_status report = "UNKNOWN"
    ∧ policy_type report = "unknown"
    ∧ compliant_controls report = []
    ∧ non_compliant_controls report = []
    ∧ report = set_overall_status (overall_status report)
                 (set_missing_controls (missing_controls report)
                    initial_evaluation).
Proof. eexists. rewrite evaluate_none. by repeat split. Qed.

(** ** Reports on a policy dictionary, against the baseline *)

Section MappingClaims.

Variable is_control_compliant :
  PasswordPolicyChecker -> string -> pyval -> pyval -> outcome bool.
Variables profile_name region : pyval.
Variable out : list string.
Variable d : gmap string pyval.

#[local] Abbreviation evaluate := (evaluate_policy_compliance is_control_compliant).
#[local] Abbreviation self := (__init__ profile_name region).
#[local] Abbreviation w0 := (baseline_world profile_name region out).
#[local] Abbreviation answers := (helper_answers is_control_compliant self d).
#[local] Abbreviation filed :=
  (fun v => controls_with is_control_compliant self d v (compliance_standards self)).

Lemma filed_at_most_nine v : (length (filed v) ≤ 9)%nat.
Proof.
  unfold controls_with. rewrite length_fmap.
  etrans; [apply length_filter | done].
Qed.

(** C1: on a policy dictionary the score is
    [round(compliant_count / total_controls * 100, 2)] with
    [total_controls = 9] and [compliant_count] the number of controls
    filed as compliant; it is the float of a two-decimal number between
    [0] and [100]. *)
Theorem compliance_score_is_rounded_percentage :
  answers = true →
  ∃ report ratio n,
    evaluate (Dict d) w0 = (Ok report, after_print w0)
    ∧ compliant_controls report = filed Compliant
    ∧ Z.of_nat (length (compliance_standards self)) = 9
    ∧ py_truediv (Z.of_nat (length (compliant_controls report))) 9 = Ok ratio
    ∧ compliance_score report = PyFloat (B64.round (py_mul_int ratio 100) 2)
    ∧ 0 ≤ n ≤ 10000
    ∧ compliance_score report = PyFloat (B64.of_decimal n 2)
    ∧ py_ge (compliance_score report) (PyInt 0) = Ok true
    ∧ py_le (compliance_score report) (PyInt 100) = Ok true.
Proof.
  intros Hanswers.
  destruct (evaluate_dict is_control_compliant d w0)
    as (ev & ratio & b & _ & Hc & _ & _ & _ & _ & _ & Hratio & _ & Hrun);
    [done | done |].
  change (Z.of_nat (length (compliance_standards (self_object w0)))) with 9
    in Hratio.
  destruct (baseline_score_table (length (compliant_controls ev)) ratio)
    as (Hdec & Hrange & Hge & Hle & _); [|done|].
  { cbn [self_object baseline_world] in Hc. rewrite Hc.
    apply filed_at_most_nine. }
  eexists _, ratio, (hundredths (length (compliant_controls ev))).
  split; [exact Hrun|]. cbn [compliant_controls compliance_score
    set_overall_status set_compliance_score].
  rewrite <- Hdec. repeat split; try done; lia.
Qed.

(** C4: on a policy dictionary each of the nine baseline controls is in
    exactly one of the three lists of the report, and a control that the
    policy lacks, or maps to [None], is in [missing_controls] and in
    neither of the other two. *)
Theorem each_control_in_exactly_one_list :
  answers = true →
  ∃ report,
    evaluate (Dict d) w0 = (Ok report, after_print w0)
    ∧ ∀ control, control ∈ baseline_controls →
        ((control ∈ compliant_controls report
          ∧ (control ∉ non_compliant_controls report)
          ∧ (control ∉ missing_controls report))
         ∨ ((control ∉ compliant_controls report)
            ∧ control ∈ non_compliant_controls report
            ∧ (control ∉ missing_controls report))
         ∨ ((control ∉ compliant_controls report)
            ∧ (control ∉ non_compliant_controls report)
            ∧ control ∈ missing_controls report))
        ∧ (d !! control = None ∨ d !! control = Some PyNone →
           control ∈ missing_controls report
           ∧ (control ∉ compliant_controls report)
           ∧ (control ∉ non_compliant_controls report)).
Proof.
  intros Hanswers.
  destruct (evaluate_dict is_control_compliant d w0)
    as (ev & ratio & b & _ & Hc & Hn & Hm & _ & _ & _ & _ & _ & Hrun);
    [done | done |].
  cbn [self_object baseline_world] in Hc, Hn, Hm.
  eexists. split; [exact Hrun|].
  cbn [compliant_controls non_compliant_controls missing_controls
       set_overall_status set_compliance_score].
  rewrite Hc, Hn, Hm. intros control Hin.
  rewrite <- (baseline_names profile_name region) in Hin.
  pose proof (baseline_keys_NoDup profile_name region) as Hnd.
  assert (∀ v1 v2, v1 ≠ v2 → control ∈ filed v1 → control ∉ filed v2) as Hexcl.
  { intros v1 v2 Hne H1 H2. apply Hne.
    eapply controls_with_functional; eauto. }
  split.
  - destruct (controls_with_total is_control_compliant self d _ control
                Hanswers Hin) as [[] Hv].
    + left. split; [done|]. split; by apply (Hexcl Compliant).
    + right; left. split; [by apply (Hexcl NonCompliant)|].
      split; [done | by apply (Hexcl NonCompliant)].
    + right; right. split; [by apply (Hexcl Missing)|].
      split; [by apply (Hexcl Missing) | done].
  - intros Habsent.
    assert (control ∈ filed Missing) as Hmiss.
    { apply controls_with_missing; [done|]. by destruct Habsent as [-> | ->]. }
    split; [done|]. split; by apply (Hexcl Missing).
Qed.

(** C10: on a policy dictionary the lengths of the three lists add up to
    nine, the lists are pairwise disjoint, and the [compliant_count] the
    score is computed from is the length of [compliant_controls]. *)
Theorem lists_partition_and_count_matches :
  answers = true →
  ∃ report ev compliant_count ratio,
    classify_controls is_control_compliant self (Dict d) (after_print w0)
      = (Ok (ev, compliant_count), after_print w0)
    ∧ evaluate (Dict d) w0 = (Ok report, after_print w0)
    ∧ compliant_controls report = compliant_controls ev
    ∧ non_compliant_controls report = non_compliant_controls ev
    ∧ missing_controls report = missing_controls ev
    ∧ compliant_count = Z.of_nat (length (compliant_controls report))
    ∧ py_truediv compliant_count 9 = Ok ratio
    ∧ compliance_score report = PyFloat (B64.round (py_mul_int ratio 100) 2)
    ∧ (length (compliant_controls report)
       + length (non_compliant_controls report)
       + length (missing_controls report) = 9)%nat
    ∧ (∀ control,
         ¬ (control ∈ compliant_controls report
            ∧ control ∈ non_compliant_controls report)
         ∧ ¬ (control ∈ compliant_controls report
              ∧ control ∈ missing_controls report)
         ∧ ¬ (control ∈ non_compliant_controls report
              ∧ control ∈ missing_controls report)).
Proof.
  intros Hanswers.
  destruct (evaluate_dict is_control_compliant d w0)
    as (ev & ratio & b & Hloop & Hc & Hn & Hm & _ & _ & _ & Hratio & _ & Hrun);
    [done | done |].
  cbn [self_object baseline_world] in Hc, Hn, Hm.
  exists (set_overall_status (if b then "COMPLIANT" else "NON_COMPLIANT")
            (set_compliance_score
               (PyFloat (B64.round (py_mul_int ratio 100) 2)) ev)),
         ev, (Z.of_nat (length (compliant_controls ev))), ratio.
  cbn [compliant_controls non_compliant_controls missing_controls
       compliance_score set_overall_status set_compliance_score].
  repeat split; try done.
  - rewrite Hc, Hn, Hm.
    apply (controls_with_length is_control_compliant self d _ Hanswers).
  - rewrite Hc, Hn. intros [H1 H2].
    by pose proof (controls_with_functional is_control_compliant self d _ _ _ _
                     (baseline_keys_NoDup profile_name region) H1 H2).
  - rewrite Hc, Hm. intros [H1 H2].
    by pose proof (controls_with_functional is_control_compliant self d _ _ _ _
                     (baseline_keys_NoDup profile_name region) H1 H2).
  - rewrite Hn, Hm. intros [H1 H2].
    by pose proof (controls_with_functional is_control_compliant self d _ _ _ _
                     (baseline_keys_NoDup profile_name region) H1 H2).
Qed.

End MappingClaims.

(** ** The threshold *)

Section Threshold.

Variable is_control_compliant :
  PasswordPolicyChecker -> string -> pyval -> pyval -> outcome bool.

#[local] Abbreviation evaluate := (evaluate_policy_compliance is_control_compliant).

(** C2: on a policy dictionary [overall_status] is ['COMPLIANT'] exactly
    when [compliance_score >= 90] holds and ['NON_COMPLIANT'] exactly when
    it does not; a score of [90.0] gives ['COMPLIANT'].  This holds for
    every checker with at least one control, the baseline among them. *)
Theorem overall_status_follows_threshold (w : world) (d : gmap string pyval) :
  compliance_standards (self_object w) ≠ [] →
  helper_answers is_control_compliant (self_object w) d = true →
  ∃ report at_least_90,
    evaluate (Dict d) w = (Ok report, after_print w)
    ∧ py_ge (compliance_score report) (PyInt 90) = Ok at_least_90
    ∧ (overall_status report = "COMPLIANT" ↔ at_least_90 = true)
    ∧ (overall_status report = "NON_COMPLIANT" ↔ at_least_90 = false)
    ∧ (compliance_score report = PyFloat (B64.of_Z 90) →
       overall_status report = "COMPLIANT").
Proof.
  intros Hnonempty Hanswers.
  destruct (evaluate_dict is_control_compliant d w Hnonempty Hanswers)
    as (ev & ratio & b & _ & _ & _ & _ & _ & _ & _ & _ & Hb & Hrun).
  eexists _, b. split; [exact Hrun|].
  cbn [compliance_score overall_status set_overall_status set_compliance_score].
  split; [exact Hb|].
  repeat split; try (by destruct b).
  intros Hscore. rewrite Hscore in Hb. vm_compute in Hb.
  by injection Hb as <-.
Qed.

(** Against the baseline only a full score reaches the threshold. *)
Lemma baseline_compliant_iff_all_nine profile_name region out d report w' :
  evaluate (Dict d) (baseline_world profile_name region out) = (Ok report, w') →
  overall_status report = "COMPLIANT"
  ↔ length (compliant_controls report) = 9%nat.
Proof.
  intros Hrun.
  destruct (helper_answers is_control_compliant
              (__init__ profile_name region) d) eqn:Hanswers.
  - destruct (evaluate_dict is_control_compliant d
                (baseline_world profile_name region out))
      as (ev & ratio & b & _ & Hc & _ & _ & _ & _ & _ & Hratio & Hb & Hrun');
      [done | done |].
    rewrite Hrun' in Hrun. injection Hrun as <- <-.
    cbn [overall_status compliant_controls set_overall_status
         set_compliance_score].
    change (Z.of_nat (length (compliance_standards
              (self_object (baseline_world profile_name region out)))))
      with 9 in Hratio.
    destruct (baseline_score_table (length (compliant_controls ev)) ratio)
      as (_ & _ & _ & _ & Hge); [|done|].
    { cbn [self_object baseline_world] in Hc. rewrite Hc.
      unfold controls_with. rewrite length_fmap.
      etrans; [apply length_filter | done]. }
    rewrite Hb in Hge. injection Hge as ->.
    case_bool_decide; split; done.
  - destruct (evaluate_dict_raises is_control_compliant d
                (baseline_world profile_name region out) Hanswers) as [e He].
    congruence.
Qed.

(** C6: when a run against the baseline files exactly eight of the nine
    controls as compliant, the remaining one is in one of the other two
    lists, the score is [88.89], which is [round(8/9*100, 2)], and the
    status is ['NON_COMPLIANT']. *)
Theorem eight_of_nine_scores_88_89 profile_name region out d report w' :
  evaluate (Dict d) (baseline_world profile_name region out) = (Ok report, w') →
  length (compliant_controls report) = 8%nat →
  (length (non_compliant_controls report)
   + length (missing_controls report) = 1)%nat
  ∧ compliance_score report = PyFloat (B64.of_decimal 8889 2)
  ∧ (∃ ratio, py_truediv 8 9 = Ok ratio
              ∧ B64.of_decimal 8889 2 = B64.round (py_mul_int ratio 100) 2)
  ∧ overall_status report = "NON_COMPLIANT".
Proof.
  intros Hrun Height.
  destruct (helper_answers is_control_compliant
              (__init__ profile_name region) d) eqn:Hanswers.
  - destruct (evaluate_dict is_control_compliant d
                (baseline_world profile_name region out))
      as (ev & ratio & b & _ & Hc & Hn & Hm & _ & _ & _ & Hratio & Hb & Hrun');
      [done | done |].
    rewrite Hrun' in Hrun. injection Hrun as <- <-.
    cbn [overall_status compliant_controls non_compliant_controls
         missing_controls compliance_score set_overall_status
         set_compliance_score] in *.
    pose proof (controls_with_length is_control_compliant _ d _ Hanswers)
      as Hsum.
    cbn [self_object baseline_world] in Hc, Hn, Hm.
    rewrite <- Hc, <- Hn, <- Hm, Height in Hsum.
    rewrite Height in Hratio. vm_compute in Hratio. injection Hratio as <-.
    vm_compute in Hb. injection Hb as <-.
    split; [simpl in Hsum; lia|].
    split; [reflexivity|]. split; [|reflexivity].
    eexists. split; reflexivity.
  - destruct (evaluate_dict_raises is_control_compliant d
                (baseline_world profile_name region out) Hanswers) as [e He].
    congruence.
Qed.

(** C7, as amended: for a policy that is [None], a dictionary, a boolean,
    a number or a string, the method against the baseline returns a report,
    and raises nothing, exactly when [policy] is [None] or is a dictionary
    on whose entries the helper answers; a boolean, a number or a string
    (an object with no [get] attribute) raises [AttributeError]. *)
Theorem returns_iff_none_or_answered_mapping profile_name region out policy :
  (returns (evaluate policy (baseline_world profile_name region out)).1 = true
   ↔ policy = Scalar PyNone
     ∨ ∃ d, policy = Dict d
            ∧ helper_answers is_control_compliant
                (__init__ profile_name region) d = true)
  ∧ (∀ v, policy = Scalar v → v ≠ PyNone →
       (evaluate policy (baseline_world profile_name region out)).1
         = Raise AttributeError).
Proof.
  split.
  - split.
    + destruct policy as [v|d].
      * destruct v; [by left|..]; intros Hret;
          (edestruct (evaluate_scalar_raises is_control_compliant)
             as [e He]; [|rewrite He in Hret]; done).
      * intros Hret. right. exists d. split; [done|].
        destruct (helper_answers is_control_compliant
                    (__init__ profile_name region) d) eqn:Hanswers; [done|].
        destruct (evaluate_dict_raises is_control_compliant d
                    (baseline_world profile_name region out) Hanswers)
          as [e He].
        by rewrite He in Hret.
    + intros [-> | (d & -> & Hanswers)]; [done|].
      destruct (evaluate_dict is_control_compliant d
                  (baseline_world profile_name region out))
        as (ev & ratio & b & _ & _ & _ & _ & _ & _ & _ & _ & _ & ->); done.
  - intros v -> Hv. by destruct v.
Qed.

End Threshold.

(** ** The helper the spec describes *)

Section SpecHelper.

Variable dir : string -> direction.

(** A boolean or integer entry equal to its required value is compliant,
    whichever way the numeric controls are compared. *)
Lemma verdict_of_required self (d : gmap string pyval) control required :
  is_bool_or_int required = true →
  d !! control = Some required →
  verdict_of (_is_control_compliant dir) self d (control, required)
    = Ok Compliant.
Proof.
  intros Hkind Hlookup. unfold verdict_of. cbn [fst snd].
  rewrite Hlookup. cbn [default]. unfold _is_control_compliant.
  destruct required as [|b|z| |]; try done.
  - unfold py_eq. cbn. by rewrite Z.compare_refl.
  - destruct (dir control); unfold py_ge, py_le, py_order; cbn;
      by rewrite Z.compare_refl.
Qed.

(** C5: a policy that gives every baseline control its required value is
    reported with all nine controls compliant, a score of [100.0] and the
    status ['COMPLIANT']. *)
Theorem matching_policy_is_fully_compliant profile_name region out
    (d : gmap string pyval) :
  Forall (fun item => d !! item.1 = Some item.2)
         (compliance_standards (__init__ profile_name region)) →
  ∃ report,
    evaluate_policy_compliance (_is_control_compliant dir) (Dict d)
        (baseline_world profile_name region out)
      = (Ok report, after_print (baseline_world profile_name region out))
    ∧ compliant_controls report = baseline_controls
    ∧ length (compliant_controls report) = 9%nat
    ∧ non_compliant_controls report = []
    ∧ missing_controls report = []
    ∧ compliance_score report = PyFloat (B64.of_decimal 1000 1)
    ∧ py_eq (compliance_score report) (PyInt 100) = true
    ∧ overall_status report = "COMPLIANT".
Proof.
  intros Hmatch.
  assert (Forall (fun item =>
            verdict_of (_is_control_compliant dir)
              (__init__ profile_name region) d item = Ok Compliant)
            (compliance_standards (__init__ profile_name region)))
    as Hverdicts.
  { assert (Forall (fun item => is_bool_or_int item.2 = true)
              (compliance_standards (__init__ profile_name region)))
      as Hkinds by (repeat constructor).
    rewrite Forall_forall in Hkinds, Hmatch. apply Forall_forall.
    intros [control required] Hin. apply verdict_of_required.
    - apply (Hkinds _ Hin).
    - apply (Hmatch _ Hin). }
  apply controls_with_all_compliant in Hverdicts
    as (Hanswers & Hc & Hn & Hm).
  destruct (evaluate_dict (_is_control_compliant dir) d
              (baseline_world profile_name region out))
    as (ev & ratio & b & _ & Hc' & Hn' & Hm' & _ & _ & _ & Hratio & Hb & Hrun);
    [done | done |].
  cbn [self_object baseline_world] in Hc', Hn', Hm'.
  rewrite Hc in Hc'. rewrite Hn in Hn'. rewrite Hm in Hm'.
  rewrite Hc' in Hratio. vm_compute in Hratio. injection Hratio as <-.
  vm_compute in Hb. injection Hb as <-.
  eexists. split; [exact Hrun|].
  cbn [overall_status compliant_controls non_compliant_controls
       missing_controls compliance_score set_overall_status
       set_compliance_score].
  rewrite Hc', Hn', Hm'. by repeat split.
Qed.

End SpecHelper.

(** ** Sample runs *)

(** The literal [88.89]: its bits, and that no float is nearer to
    [8889 / 100]. *)
Example literal_88_89 :
  B64.of_decimal 8889 2 = S754_finite false 6255077669952553 (-46)
  ∧ 2 * Z.abs (6255077669952553 * 100 - 8889 * 2 ^ 46) ≤ 100.
Proof. split; [reflexivity | vm_compute; discriminate]. Qed.

Example hard_expiry_run :
  evaluate_policy_compliance minimum_helper (Dict hard_expiry_policy) sample_world
    = (Ok hard_expiry_report, after_print sample_world).
Proof. vm_compute. reflexivity. Qed.

(** A malformed entry: a string where a number is required makes the
    comparison of the helper raise. *)
Example string_for_a_number_raises :
  evaluate_policy_compliance minimum_helper
      (Dict (<["max_password_age" := PyStr "ninety"]> matching_policy))
      sample_world
    = (Raise TypeError, after_print sample_world).
Proof. vm_compute. reflexivity. Qed.

(** The threshold itself: nine compliant controls of ten score [90.0], and
    that is ['COMPLIANT']. *)
Example nine_of_ten_is_compliant :
  ∃ report w',
    evaluate_policy_compliance minimum_helper
        (Dict (<["expire_passwords" := PyBool false]> matching_policy))
        {| self_object := ten_controls; stdout := [] |}
      = (Ok report, w')
    ∧ length (compliant_controls report) = 9%nat
    ∧ non_compliant_controls report = ["expire_passwords"]
    ∧ compliance_score report = PyFloat (B64.of_Z 90)
    ∧ overall_status report = "COMPLIANT".
Proof. eexists _, _. vm_compute. by repeat split. Qed.

(** ** The theorems at the sample runs *)

Lemma compliance_score_is_rounded_percentage_witness :
  helper_answers minimum_helper (__init__ PyNone default_region)
    hard_expiry_policy = true
  ∧ ∃ report ratio n,
      evaluate_policy_compliance minimum_helper (Dict hard_expiry_policy)
          sample_world = (Ok report, after_print sample_world)
      ∧ compliant_controls report
          = controls_with minimum_helper (__init__ PyNone default_region)
              hard_expiry_policy Compliant
              (compliance_standards (__init__ PyNone default_region))
      ∧ Z.of_nat (length (compliance_standards (__init__ PyNone default_region))) = 9
      ∧ py_truediv (Z.of_nat (length (compliant_controls report))) 9 = Ok ratio
      ∧ compliance_score report = PyFloat (B64.round (py_mul_int ratio 100) 2)
      ∧ 0 ≤ n ≤ 10000
      ∧ compliance_score report = PyFloat (B64.of_decimal n 2)
      ∧ py_ge (compliance_score report) (PyInt 0) = Ok true
      ∧ py_le (compliance_score report) (PyInt 100) = Ok true.
Proof.
  split; [vm_compute; reflexivity|].
  apply (compliance_score_is_rounded_percentage minimum_helper PyNone
           default_region [] hard_expiry_policy).
  vm_compute; reflexivity.
Defined.

Lemma overall_status_follows_threshold_witness :
  ∃ report at_least_90,
    evaluate_policy_compliance minimum_helper (Dict hard_expiry_policy)
        sample_world = (Ok report, after_print sample_world)
    ∧ py_ge (compliance_score report) (PyInt 90) = Ok at_least_90
    ∧ (overall_status report = "COMPLIANT" ↔ at_least_90 = true)
    ∧ (overall_status report = "NON_COMPLIANT" ↔ at_least_90 = false)
    ∧ (compliance_score report = PyFloat (B64.of_Z 90) →
       overall_status report = "COMPLIANT").
Proof.
  apply (overall_status_follows_threshold minimum_helper sample_world
           hard_expiry_policy).
  - discriminate.
  - vm_compute; reflexivity.
Defined.

Lemma each_control_in_exactly_one_list_witness :
  ∃ report,
    evaluate_policy_compliance minimum_helper
        (Dict (delete "max_password_age" hard_expiry_policy)) sample_world
      = (Ok report, after_print sample_world)
    ∧ ∀ control, control ∈ baseline_controls →
        ((control ∈ compliant_controls report
          ∧ (control ∉ non_compliant_controls report)
          ∧ (control ∉ missing_controls report))
         ∨ ((control ∉ compliant_controls report)
            ∧ control ∈ non_compliant_controls report
            ∧ (control ∉ missing_controls report))
         ∨ ((control ∉ compliant_controls report)
            ∧ (control ∉ non_compliant_controls report)
            ∧ control ∈ missing_controls report))
        ∧ (delete "max_password_age" hard_expiry_policy !! control = None
           ∨ delete "max_password_age" hard_expiry_policy !! control
               = Some PyNone →
           control ∈ missing_controls report
           ∧ (control ∉ compliant_controls report)
           ∧ (control ∉ non_compliant_controls report)).
Proof.
  apply (each_control_in_exactly_one_list minimum_helper PyNone default_region
           [] (delete "max_password_age" hard_expiry_policy)).
  vm_compute; reflexivity.
Defined.

Lemma lists_partition_and_count_matches_witness :
  ∃ report ev compliant_count ratio,
    classify_controls minimum_helper (__init__ PyNone default_region)
        (Dict hard_expiry_policy) (after_print sample_world)
      = (Ok (ev, compliant_count), after_print sample_world)
    ∧ evaluate_policy_compliance minimum_helper (Dict hard_expiry_policy)
          sample_world = (Ok report, after_print sample_world)
    ∧ compliant_controls report = compliant_controls ev
    ∧ non_compliant_controls report = non_compliant_controls ev
    ∧ missing_controls report = missing_controls ev
    ∧ compliant_count = Z.of_nat (length (compliant_controls report))
    ∧ py_truediv compliant_count 9 = Ok ratio
    ∧ compliance_score report = PyFloat (B64.round (py_mul_int ratio 100) 2)
    ∧ (length (compliant_controls report)
       + length (non_compliant_controls report)
       + length (missing_controls report) = 9)%nat
    ∧ (∀ control,
         ¬ (control ∈ compliant_controls report
            ∧ control ∈ non_compliant_controls report)
         ∧ ¬ (control ∈ compliant_controls report
              ∧ control ∈ missing_controls report)
         ∧ ¬ (control ∈ non_compliant_controls report
              ∧ control ∈ missing_controls report)).
Proof.
  apply (lists_partition_and_count_matches minimum_helper PyNone
           default_region [] hard_expiry_policy).
  vm_compute; reflexivity.
Defined.

Lemma matching_policy_is_fully_compliant_witness :
  ∃ report,
    evaluate_policy_compliance (_is_control_compliant (fun _ => AtMost))
        (Dict matching_policy) sample_world
      = (Ok report, after_print sample_world)
    ∧ compliant_controls report = baseline_controls
    ∧ length (compliant_controls report) = 9%nat
    ∧ non_compliant_controls report = []
    ∧ missing_controls report = []
    ∧ compliance_score report = PyFloat (B64.of_decimal 1000 1)
    ∧ py_eq (compliance_score report) (PyInt 100) = true
    ∧ overall_status report = "COMPLIANT".
Proof.
  apply (matching_policy_is_fully_compliant (fun _ => AtMost) PyNone
           default_region [] matching_policy).
  repeat (apply Forall_cons_2; [vm_compute; reflexivity|]). apply Forall_nil_2.
Defined.

Lemma eight_of_nine_scores_88_89_witness :
  length (compliant_controls hard_expiry_report) = 8%nat
  ∧ (length (non_compliant_controls hard_expiry_report)
     + length (missing_controls hard_expiry_report) = 1)%nat
  ∧ compliance_score hard_expiry_report = PyFloat (B64.of_decimal 8889 2)
  ∧ (∃ ratio, py_truediv 8 9 = Ok ratio
              ∧ B64.of_decimal 8889 2 = B64.round (py_mul_int ratio 100) 2)
  ∧ overall_status hard_expiry_report = "NON_COMPLIANT".
Proof.
  split; [reflexivity|].
  apply (eight_of_nine_scores_88_89 minimum_helper PyNone default_region []
           hard_expiry_policy hard_expiry_report (after_print sample_world)).
  - vm_compute; reflexivity.
  - reflexivity.
Defined.

(** C7 as stated fails: a policy that is a string (the name of a policy,
    say, instead of the policy) makes the first [policy.get] raise
    [AttributeError], with any helper. *)
Lemma non_mapping_policy_raises :
  (evaluate_policy_compliance minimum_helper (Scalar (PyStr "default"))
     sample_world).1 = Raise AttributeError
  ∧ ¬ (∃ helper, ∀ policy, ∃ report,
         (evaluate_policy_compliance helper policy sample_world).1 = Ok report).
Proof.
  split; [reflexivity|].
  intros [helper Hall]. destruct (Hall (Scalar (PyStr "default"))) as [report H].
  vm_compute in H. discriminate.
Qed.

(** * Further properties of [evaluate_policy_compliance] *)

Section Runs.

Variable is_control_compliant :
  PasswordPolicyChecker -> string -> pyval -> pyval -> outcome bool.

#[local] Abbreviation evaluate := (evaluate_policy_compliance is_control_compliant).
#[local] Abbreviation classify := (classify_controls is_control_compliant).
#[local] Abbreviation answers := (helper_answers is_control_compliant).
#[local] Abbreviation filed := (controls_with is_control_compliant).

(** The method on a policy other than [None]: the line, the loop, the
    score and the status. *)
Lemma evaluate_unfold policy w :
  policy ≠ Scalar PyNone →
  evaluate policy w =
    match classify (self_object w) policy (after_print w) with
    | (Ok (ev, compliant_count), w') =>
        (score_and_status
           (Z.of_nat (length (compliance_standards (self_object w))))
           ev compliant_count, w')
    | (Raise e, w') => (Raise e, w')
    end.
Proof.
  intros Hpolicy.
  assert (∀ w1,
    ('(evaluation, compliant_count) ←
        classify (self_object w) policy;
     ratio ← lift (py_truediv compliant_count
                     (Z.of_nat (length (compliance_standards (self_object w)))));
     at_least_90 ← lift (py_ge
         (compliance_score
            (set_compliance_score
               (PyFloat (B64.round (py_mul_int ratio 100) 2)) evaluation))
         (PyInt 90));
     ret (set_overall_status
            (if at_least_90 : bool then "COMPLIANT" else "NON_COMPLIANT")
            (set_compliance_score
               (PyFloat (B64.round (py_mul_int ratio 100) 2)) evaluation))) w1
    = match classify (self_object w) policy w1 with
      | (Ok (ev, compliant_count), w') =>
          (score_and_status
             (Z.of_nat (length (compliance_standards (self_object w))))
             ev compliant_count, w')
      | (Raise e, w') => (Raise e, w')
      end) as Htail.
  { intros w1. unfold mbind, M_bind, bind, lift, ret, score_and_status.
    destruct (classify (self_object w) policy w1) as [[[ev n]|e] w']; [|done].
    destruct (py_truediv n _) as [ratio|e]; [|done].
    cbn [compliance_score set_compliance_score].
    by destruct (py_ge _ (PyInt 90)). }
  unfold evaluate_policy_compliance.
  unfold mbind at 1 2, M_bind at 1 2, bind at 1 2, print, read_self.
  cbn [self_object].
  change {| self_object := self_object w; stdout := _ |} with (after_print w).
  destruct policy as [[]|d]; try done; apply Htail.
Qed.

(** With no control to check, the division by [total_controls] raises
    before anything else can. *)
Lemma evaluate_no_controls policy w :
  compliance_standards (self_object w) = [] →
  policy ≠ Scalar PyNone →
  evaluate policy w = (Raise ZeroDivisionError, after_print w).
Proof.
  intros Hempty Hpolicy. rewrite evaluate_unfold by done.
  unfold classify_controls. by rewrite Hempty.
Qed.

(** What a returned report on a dictionary was computed from. *)
Lemma run_inversion d w report w' :
  evaluate (Dict d) w = (Ok report, w') →
  w' = after_print w
  ∧ compliance_standards (self_object w) ≠ []
  ∧ answers (self_object w) d = true
  ∧ ∃ ev ratio at_least_90,
      compliant_controls ev
        = filed (self_object w) d Compliant (compliance_standards (self_object w))
      ∧ non_compliant_controls ev
        = filed (self_object w) d NonCompliant (compliance_standards (self_object w))
      ∧ missing_controls ev
        = filed (self_object w) d Missing (compliance_standards (self_object w))
      ∧ soc2_cc6_2_status ev = "UNKNOWN"
      ∧ nist_ia_5_status ev = "UNKNOWN"
      ∧ policy_type ev = "unknown"
      ∧ py_truediv (Z.of_nat (length (compliant_controls ev)))
                   (Z.of_nat (length (compliance_standards (self_object w))))
          = Ok ratio
      ∧ py_ge (PyFloat (B64.round (py_mul_int ratio 100) 2)) (PyInt 90)
          = Ok at_least_90
      ∧ report = set_overall_status
                   (if at_least_90 then "COMPLIANT" else "NON_COMPLIANT")
                   (set_compliance_score
                      (PyFloat (B64.round (py_mul_int ratio 100) 2)) ev).
Proof.
  intros Hrun.
  assert (compliance_standards (self_object w) ≠ []) as Hnonempty.
  { intros Hempty. by rewrite evaluate_no_controls in Hrun. }
  destruct (answers (self_object w) d) eqn:Hanswers.
  - destruct (evaluate_dict is_control_compliant d w Hnonempty Hanswers)
      as (ev & ratio & b & _ & Hc & Hn & Hm & H1 & H2 & H3 & Hratio & Hb & Hrun').
    rewrite Hrun' in Hrun. injection Hrun as <- <-.
    repeat split; try done. by exists ev, ratio, b.
  - destruct (evaluate_dict_raises is_control_compliant d w Hanswers) as [e He].
    congruence.
Qed.

(** *** Helper facts about lists and the loop *)

Lemma filter_keeps_all {A} (P : A → Prop) `{!∀ x, Decision (P x)} (l : list A) :
  length (filter P l) = length l → filter P l = l.
Proof.
  induction l as [|x l IH]; [done|]. rewrite filter_cons.
  destruct (decide (P x)); simpl; intros Hlen.
  - f_equal. apply IH. lia.
  - pose proof (length_filter P l). lia.
Qed.

Lemma for_each_ext {A S} (xs : list A) (body1 body2 : S → A → M S) :
  (∀ acc x w, x ∈ xs → body1 acc x w = body2 acc x w) →
  ∀ acc w, for_each xs body1 acc w = for_each xs body2 acc w.
Proof.
  induction xs as [|x xs IH]; intros Hext acc w; [done|].
  simpl. unfold mbind, M_bind, bind.
  rewrite Hext by (apply elem_of_cons; by left).
  destruct (body2 acc x w) as [[acc'|e] w']; [|done].
  apply IH. intros acc0 y w0 Hy. apply Hext. apply elem_of_cons. by right.
Qed.

Lemma for_each_app {A S} (xs ys : list A) (body : S → A → M S) acc w :
  for_each (xs ++ ys) body acc w =
    match for_each xs body acc w with
    | (Ok acc', w') => for_each ys body acc' w'
    | (Raise e, w') => (Raise e, w')
    end.
Proof.
  revert acc w. induction xs as [|x xs IH]; intros acc w; [done|].
  simpl. unfold mbind, M_bind, bind.
  destruct (body acc x w) as [[acc'|e] w']; [apply IH | done].
Qed.

(** The loop neither reads nor writes the state. *)
Lemma classify_stateless self policy :
  ∃ o, ∀ w, classify self policy w = (o, w).
Proof.
  unfold classify_controls. generalize (initial_evaluation, 0).
  induction (compliance_standards self) as [|item items IH]; intros acc.
  - by exists (Ok acc).
  - assert (∃ o, ∀ w, classify_control is_control_compliant self policy
                        acc item w = (o, w)) as [o Ho].
    { destruct acc as [ev n], item as [control required].
      unfold classify_control, mbind, M_bind, bind, lift, ret.
      destruct (py_get policy control) as [[]|]; try by eexists.
      all: destruct (is_control_compliant self control _ required) as [[|]|];
        by eexists. }
    destruct o as [acc'|e].
    + destruct (IH acc') as [o' Ho']. exists o'. intros w.
      simpl. unfold mbind, M_bind, bind. by rewrite Ho.
    + exists (Raise e). intros w.
      simpl. unfold mbind, M_bind, bind. by rewrite Ho.
Qed.

Lemma controls_with_all self d v items :
  Forall (fun item => verdict_of is_control_compliant self d item = Ok v) items →
  forallb (fun item => returns (verdict_of is_control_compliant self d item))
          items = true
  ∧ filed self d v items = items.*1
  ∧ ∀ v', v' ≠ v → filed self d v' items = [].
Proof.
  unfold controls_with. induction 1 as [|item items Hitem _ IH]; [done|].
  destruct IH as (Hall & Hv & Hother).
  cbn [forallb]. rewrite filter_cons, Hitem, Hall.
  case_decide; [|done]. rewrite fmap_cons, Hv.
  repeat split; try done.
  intros v' Hne. rewrite filter_cons, Hitem.
  case_decide; [congruence|]. by apply Hother.
Qed.

Lemma controls_with_permutation self d items :
  forallb (fun item => returns (verdict_of is_control_compliant self d item))
          items = true →
  filed self d Compliant items ++ filed self d NonCompliant items
    ++ filed self d Missing items ≡ₚ items.*1.
Proof.
  unfold controls_with. induction items as [|item items IH]; [done|].
  cbn [forallb]. intros [Hitem Hrest]%andb_prop. specialize (IH Hrest).
  rewrite !filter_cons, fmap_cons.
  destruct (verdict_of _ self d item) as [[]|]; [..|done];
    repeat case_decide; try congruence; rewrite ?fmap_cons.
  - simpl. by rewrite IH.
  - rewrite <- app_comm_cons, <- Permutation_middle. by rewrite IH.
  - rewrite app_assoc, <- Permutation_middle, <- app_assoc. by rewrite IH.
Qed.

Lemma controls_with_sublist self d v items :
  filed self d v items `sublist_of` items.*1.
Proof. unfold controls_with. apply fmap_sublist, sublist_filter. Qed.

End Runs.

Section Behaviour.

Variable is_control_compliant :
  PasswordPolicyChecker -> string -> pyval -> pyval -> outcome bool.

#[local] Abbreviation evaluate := (evaluate_policy_compliance is_control_compliant).
#[local] Abbreviation verdict_at := (verdict_of is_control_compliant).

(** X1: a policy dictionary that has none of the baseline controls (the
    empty dictionary, or one whose baseline keys map to [None]) is reported
    like an absent policy, all nine controls missing and ['NON_COMPLIANT'],
    except that the score is the float [0.0] and not the integer [0]; the
    helper is not asked, so this holds whatever the helper does. *)
Theorem policy_without_controls_is_all_missing profile_name region out
    (d : gmap string pyval) :
  (∀ control, control ∈ baseline_controls →
     d !! control = None ∨ d !! control = Some PyNone) →
  evaluate (Dict d) (baseline_world profile_name region out)
    = (Ok (set_compliance_score (PyFloat (S754_zero false)) all_missing_report),
       after_print (baseline_world profile_name region out))
  ∧ evaluate (Scalar PyNone) (baseline_world profile_name region out)
    = (Ok all_missing_report,
       after_print (baseline_world profile_name region out))
  ∧ compliance_score all_missing_report = PyInt 0
  ∧ py_eq (PyFloat (S754_zero false)) (PyInt 0) = true.
Proof.
  intros Habsent. split; [|by repeat split].
  assert (Forall (fun item =>
            verdict_at (__init__ profile_name region) d item = Ok Missing)
            (compliance_standards (__init__ profile_name region))) as Hverdicts.
  { apply Forall_forall. intros [control required] Hin.
    unfold verdict_of. cbn [fst snd].
    assert (control ∈ baseline_controls) as Hc.
    { rewrite <- (baseline_names profile_name region).
      by apply (list_elem_of_fmap_2 fst) in Hin. }
    by destruct (Habsent control Hc) as [-> | ->]. }
  apply controls_with_all in Hverdicts as (Hanswers & Hmissing & Hother).
  destruct (evaluate_dict is_control_compliant d
              (baseline_world profile_name region out))
    as (ev & ratio & b & _ & Hc & Hn & Hm & H1 & H2 & H3 & Hratio & Hb & Hrun);
    [done | done |].
  cbn [self_object baseline_world] in Hc, Hn, Hm.
  rewrite Hother in Hc by done. rewrite Hother in Hn by done.
  rewrite Hmissing in Hm.
  rewrite Hc in Hratio. vm_compute in Hratio. injection Hratio as <-.
  vm_compute in Hb. injection Hb as <-.
  rewrite Hrun. do 2 f_equal.
  destruct ev; cbn in *. by subst.
Qed.

(** X2: the method reads the policy only at the keys of
    [self.compliance_standards], and an absent key reads like a key mapped
    to [None]: two dictionaries that agree there give the same outcome
    (the same report or the same exception), whatever else they hold. *)
Theorem only_baseline_keys_are_read (w : world) (d1 d2 : gmap string pyval) :
  (∀ control, control ∈ (compliance_standards (self_object w)).*1 →
     default PyNone (d1 !! control) = default PyNone (d2 !! control)) →
  evaluate (Dict d1) w = evaluate (Dict d2) w.
Proof.
  intros Hagree. rewrite !evaluate_unfold by done.
  assert (classify_controls is_control_compliant (self_object w) (Dict d1)
            (after_print w)
          = classify_controls is_control_compliant (self_object w) (Dict d2)
              (after_print w)) as ->; [|done].
  unfold classify_controls. apply for_each_ext.
  intros acc item w1 Hin. rewrite !classify_control_verdict.
  assert (verdict_at (self_object w) d1 item = verdict_at (self_object w) d2 item)
    as ->; [|done].
  unfold verdict_of. rewrite Hagree; [done|].
  by apply (list_elem_of_fmap_2 fst) in Hin.
Qed.

(** X3: each list of a returned report names its controls in the order of
    [self.compliance_standards] (it is a subsequence of the keys), and
    the three lists together hold every key exactly once. *)
Theorem report_lists_keep_baseline_order (w : world) (d : gmap string pyval)
    report w' :
  evaluate (Dict d) w = (Ok report, w') →
  compliant_controls report `sublist_of` (compliance_standards (self_object w)).*1
  ∧ non_compliant_controls report
      `sublist_of` (compliance_standards (self_object w)).*1
  ∧ missing_controls report `sublist_of` (compliance_standards (self_object w)).*1
  ∧ compliant_controls report ++ non_compliant_controls report
      ++ missing_controls report ≡ₚ (compliance_standards (self_object w)).*1.
Proof.
  intros (_ & _ & Hanswers & ev & ratio & b & Hc & Hn & Hm & _ & _ & _ & _ & _ & ->)
    %run_inversion.
  cbn [compliant_controls non_compliant_controls missing_controls
       set_overall_status set_compliance_score].
  rewrite Hc, Hn, Hm.
  repeat split; try apply controls_with_sublist.
  by apply controls_with_permutation.
Qed.

(** X4: when the helper raises, the method raises the same exception, that
    of the first control in baseline order on which the helper raises; the
    controls after it are not looked at. *)
Theorem first_helper_exception_propagates (w : world) (d : gmap string pyval)
    before control required after current_value e :
  compliance_standards (self_object w) = before ++ (control, required) :: after →
  forallb (fun item => returns (verdict_at (self_object w) d item)) before = true →
  d !! control = Some current_value →
  current_value ≠ PyNone →
  is_control_compliant (self_object w) control current_value required = Raise e →
  evaluate (Dict d) w = (Raise e, after_print w).
Proof.
  intros Hsplit Hbefore Hlookup Hpresent Hraise.
  rewrite evaluate_unfold by done. unfold classify_controls.
  rewrite Hsplit, for_each_app.
  destruct (for_each_returns is_control_compliant (self_object w) d before
              (initial_evaluation, 0) (after_print w) Hbefore)
    as (acc' & -> & _).
  simpl. unfold mbind, M_bind, bind. rewrite classify_control_verdict.
  unfold verdict_of. cbn [fst snd]. rewrite Hlookup.
  destruct current_value; [done|..]; simpl; by rewrite Hraise.
Qed.

(** X5: a checker whose [compliance_standards] is empty raises
    [ZeroDivisionError] on every policy other than [None], a dictionary or
    not (the loop has nothing to look up, the division by
    [total_controls = 0] raises); on [None] it still returns, with nothing
    missing and ['NON_COMPLIANT']. *)
Theorem no_controls_divides_by_zero (w : world) :
  compliance_standards (self_object w) = [] →
  (∀ policy, policy ≠ Scalar PyNone →
     evaluate policy w = (Raise ZeroDivisionError, after_print w))
  ∧ ∃ report,
      evaluate (Scalar PyNone) w = (Ok report, after_print w)
      ∧ missing_controls report = []
      ∧ compliance_score report = PyInt 0
      ∧ overall_status report = "NON_COMPLIANT".
Proof.
  intros Hempty. split.
  - intros policy Hpolicy. by apply evaluate_no_controls.
  - eexists. rewrite evaluate_none, Hempty. by repeat split.
Qed.

End Behaviour.

Section Verdict.

Variable is_control_compliant :
  PasswordPolicyChecker -> string -> pyval -> pyval -> outcome bool.

#[local] Abbreviation evaluate := (evaluate_policy_compliance is_control_compliant).

(** What a returned report on a dictionary against the baseline was
    computed from: the count, at most nine, and its score. *)
Lemma baseline_run_inversion profile_name region out d report w' :
  evaluate (Dict d) (baseline_world profile_name region out) = (Ok report, w') →
  ∃ ratio,
    (length (compliant_controls report) ≤ 9)%nat
    ∧ (length (compliant_controls report)
       + length (non_compliant_controls report)
       + length (missing_controls report) = 9)%nat
    ∧ compliant_controls report `sublist_of` baseline_controls
    ∧ py_truediv (Z.of_nat (length (compliant_controls report))) 9 = Ok ratio
    ∧ compliance_score report = PyFloat (B64.round (py_mul_int ratio 100) 2)
    ∧ overall_status report
        = if bool_decide (length (compliant_controls report) = 9%nat)
          then "COMPLIANT" else "NON_COMPLIANT".
Proof.
  intros (_ & _ & Hanswers & ev & ratio & b & Hc & Hn & Hm & _ & _ & _
          & Hratio & Hb & ->)%run_inversion.
  cbn [self_object baseline_world] in *.
  cbn [compliant_controls non_compliant_controls missing_controls
       compliance_score overall_status set_overall_status set_compliance_score].
  change (Z.of_nat (length (compliance_standards (__init__ profile_name region))))
    with 9 in Hratio.
  pose proof (controls_with_length is_control_compliant _ d _ Hanswers) as Hsum.
  rewrite <- Hc, <- Hn, <- Hm in Hsum.
  change (length (compliance_standards (__init__ profile_name region)))
    with 9%nat in Hsum.
  assert (length (compliant_controls ev) ≤ 9)%nat as Hle by lia.
  destruct (baseline_score_table _ ratio Hle Hratio) as (_ & _ & _ & _ & Hge).
  rewrite Hb in Hge. injection Hge as ->.
  exists ratio. repeat split; try done.
  rewrite Hc, <- (baseline_names profile_name region).
  apply controls_with_sublist.
Qed.

(** X6: against the baseline the 90 percent threshold leaves no slack: the
    status is ['COMPLIANT'] exactly when no control is non-compliant and
    none is missing, and then all nine are listed as compliant, in baseline
    order, with a score of [100.0]; one control that fails or is missing
    makes it ['NON_COMPLIANT']. *)
Theorem compliant_iff_nothing_failed profile_name region out
    (d : gmap string pyval) report w' :
  evaluate (Dict d) (baseline_world profile_name region out) = (Ok report, w') →
  (overall_status report = "COMPLIANT"
   ↔ non_compliant_controls report = [] ∧ missing_controls report = [])
  ∧ (overall_status report = "NON_COMPLIANT"
     ↔ non_compliant_controls report ≠ [] ∨ missing_controls report ≠ [])
  ∧ (overall_status report = "COMPLIANT" →
     compliant_controls report = baseline_controls
     ∧ compliance_score report = PyFloat (B64.of_Z 100)).
Proof.
  intros Hrun.
  destruct (baseline_run_inversion _ _ _ _ _ _ Hrun)
    as (ratio & Hle & Hsum & Hsub & Hratio & Hscore & Hstatus).
  rewrite Hstatus.
  destruct (non_compliant_controls report) as [|c1 l1] eqn:Hn;
    destruct (missing_controls report) as [|c2 l2] eqn:Hm;
    simpl in Hsum; case_bool_decide; try lia.
  - repeat split; try done; try (intros [|]; done).
    + destruct (run_inversion is_control_compliant _ _ _ _ Hrun)
        as (_ & _ & _ & ev & ? & ? & Hc & _ & _ & _ & _ & _ & _ & _ & ->).
      cbn [compliant_controls set_overall_status set_compliance_score] in *.
      cbn [self_object baseline_world] in Hc.
      rewrite Hc. unfold controls_with. rewrite filter_keeps_all; [done|].
      rewrite Hc in H. unfold controls_with in H.
      by rewrite length_fmap in H.
    + rewrite Hscore. rewrite H in Hratio. vm_compute in Hratio.
      by injection Hratio as <-.
  - repeat split; try done; try (intros [? ?]; done); by right.
  - repeat split; try done; try (intros [? ?]; done); by left.
  - repeat split; try done; try (intros [? ?]; done); by left.
Qed.

(** X7: a report the method returns, on any policy and for any checker,
    has [overall_status] ['COMPLIANT'] or ['NON_COMPLIANT'], never the
    initial ['UNKNOWN']; [soc2_cc6_2_status], [nist_ia_5_status] and
    [policy_type] are never assigned and keep their initial values. *)
Theorem returned_status_is_decided (policy : pyobj) (w : world) report w' :
  evaluate policy w = (Ok report, w') →
  (overall_status report = "COMPLIANT" ∨ overall_status report = "NON_COMPLIANT")
  ∧ soc2_cc6_2_status report = "UNKNOWN"
  ∧ nist_ia_5_status report = "UNKNOWN"
  ∧ policy_type report = "unknown".
Proof.
  intros Hrun. destruct policy as [v|d].
  - destruct v;
      [ rewrite evaluate_none in Hrun; injection Hrun as <- <-;
        repeat split; by right
      | edestruct (evaluate_scalar_raises is_control_compliant) as [e He];
        [|rewrite He in Hrun]; done .. ].
  - apply run_inversion in Hrun
      as (_ & _ & _ & ev & ratio & b & _ & _ & _ & H1 & H2 & H3 & _ & _ & ->).
    cbn. repeat split; try done. destruct b; [by left | by right].
Qed.

(** The outcome of a call depends on the checker object only, not on what
    has been printed before. *)
Lemma evaluate_reads_self_only policy w1 w2 :
  self_object w1 = self_object w2 →
  (evaluate policy w1).1 = (evaluate policy w2).1.
Proof.
  intros Hself.
  assert (policy ≠ Scalar PyNone →
          (evaluate policy w1).1 = (evaluate policy w2).1) as Hother.
  { intros Hpolicy. rewrite !evaluate_unfold by done. rewrite Hself.
    destruct (classify_stateless is_control_compliant (self_object w2) policy)
      as [o Ho].
    rewrite !Ho. by destruct o as [[ev n]|e]. }
  destruct policy as [[]|d]; try (by apply Hother).
  by rewrite !evaluate_none, Hself.
Qed.

(** X8: a call, returning or raising, appends exactly one line to the
    output and leaves every attribute of the checker as it was; a second
    call on the same policy has the same outcome as the first. *)
Theorem call_prints_one_line_and_repeats (policy : pyobj) (w : world) :
  self_object (evaluate policy w).2 = self_object w
  ∧ stdout (evaluate policy w).2
      = stdout w
        ++ ["Evaluating password policy against compliance standards..."]
  ∧ (evaluate policy (evaluate policy w).2).1 = (evaluate policy w).1.
Proof.
  rewrite evaluate_frame. repeat split.
  by apply evaluate_reads_self_only.
Qed.

End Verdict.

(** More compliant controls, a strictly higher score: rounding to two
    decimals never merges two counts. *)
Lemma baseline_scores_increase (k1 k2 : nat) ratio1 ratio2 :
  (k1 < k2 ≤ 9)%nat →
  py_truediv (Z.of_nat k1) 9 = Ok ratio1 →
  py_truediv (Z.of_nat k2) 9 = Ok ratio2 →
  py_ge (PyFloat (B64.round (py_mul_int ratio1 100) 2))
        (PyFloat (B64.round (py_mul_int ratio2 100) 2)) = Ok false
  ∧ py_le (PyFloat (B64.round (py_mul_int ratio1 100) 2))
          (PyFloat (B64.round (py_mul_int ratio2 100) 2)) = Ok true.
Proof.
  intros Hk H1 H2.
  do 10 (destruct k1 as [|k1];
    [ injection H1 as <-;
      do 10 (destruct k2 as [|k2];
        [ try lia; injection H2 as <-; vm_compute; split; reflexivity |]);
      lia |]).
  lia.
Qed.

Lemma hundredths_nearest (k : nat) :
  (k ≤ 9)%nat → 2 * Z.abs (9 * hundredths k - 10000 * Z.of_nat k) ≤ 9.
Proof.
  intros Hk.
  do 10 (destruct k as [|k]; [vm_compute; discriminate|]). lia.
Qed.

Section Scores.

Variable is_control_compliant :
  PasswordPolicyChecker -> string -> pyval -> pyval -> outcome bool.

#[local] Abbreviation evaluate := (evaluate_policy_compliance is_control_compliant).

(** X9: against the baseline every control weighs the same and the score
    orders reports by their number of compliant controls: two reports with
    as many compliant controls have the same score and status, whichever
    controls these are, and a report with more compliant controls has a
    strictly higher score. *)
Theorem score_orders_reports_by_count profile_name region out1 out2
    (d1 d2 : gmap string pyval) report1 report2 w1 w2 :
  evaluate (Dict d1) (baseline_world profile_name region out1) = (Ok report1, w1) →
  evaluate (Dict d2) (baseline_world profile_name region out2) = (Ok report2, w2) →
  (length (compliant_controls report1) = length (compliant_controls report2) →
   compliance_score report1 = compliance_score report2
   ∧ overall_status report1 = overall_status report2)
  ∧ ((length (compliant_controls report1)
      < length (compliant_controls report2))%nat →
     py_ge (compliance_score report1) (compliance_score report2) = Ok false
     ∧ py_le (compliance_score report1) (compliance_score report2) = Ok true).
Proof.
  intros (ratio1 & Hle1 & _ & _ & Hratio1 & Hscore1 & Hstatus1)
           %baseline_run_inversion
         (ratio2 & Hle2 & _ & _ & Hratio2 & Hscore2 & Hstatus2)
           %baseline_run_inversion.
  rewrite Hscore1, Hscore2, Hstatus1, Hstatus2. split.
  - intros Heq. rewrite Heq in Hratio1 |- *.
    rewrite Hratio1 in Hratio2. by injection Hratio2 as ->.
  - intros Hlt. by apply (baseline_scores_increase _ _ _ _ (conj Hlt Hle2)).
Qed.

(** X10: against the baseline the score is the exact percentage
    [100 k / 9] of compliant controls rounded to the nearest hundredth:
    it is the float of [n / 100] for the integer [n] with
    [|n / 100 - 100 k / 9| <= 1 / 200]; the rounding errors of the float
    division and product never reach the decimal rounding. *)
Theorem score_is_percentage_to_nearest_hundredth profile_name region out
    (d : gmap string pyval) report w' :
  evaluate (Dict d) (baseline_world profile_name region out) = (Ok report, w') →
  ∃ n,
    compliance_score report = PyFloat (B64.of_decimal n 2)
    ∧ 2 * Z.abs (9 * n - 10000 * Z.of_nat (length (compliant_controls report)))
        ≤ 9.
Proof.
  intros (ratio & Hle & _ & _ & Hratio & Hscore & _)%baseline_run_inversion.
  exists (hundredths (length (compliant_controls report))).
  split; [|by apply hundredths_nearest].
  rewrite Hscore. f_equal.
  by destruct (baseline_score_table _ ratio Hle Hratio) as (-> & _).
Qed.

End Scores.

(** X11: the helper is asked only about baseline controls that the policy
    maps to a value other than [None], with that value and the required
    one: two helpers that agree on these questions give the same outcome,
    however they differ elsewhere. *)
Theorem helper_is_asked_only_about_present_controls
    (helper1 helper2 :
       PasswordPolicyChecker -> string -> pyval -> pyval -> outcome bool)
    (w : world) (d : gmap string pyval) :
  (∀ control required current_value,
     (control, required) ∈ compliance_standards (self_object w) →
     d !! control = Some current_value →
     current_value ≠ PyNone →
     helper1 (self_object w) control current_value required
       = helper2 (self_object w) control current_value required) →
  evaluate_policy_compliance helper1 (Dict d) w
    = evaluate_policy_compliance helper2 (Dict d) w.
Proof.
  intros Hagree. rewrite !evaluate_unfold by done.
  assert (classify_controls helper1 (self_object w) (Dict d) (after_print w)
          = classify_controls helper2 (self_object w) (Dict d) (after_print w))
    as ->; [|done].
  unfold classify_controls. apply for_each_ext.
  intros acc [control required] w1 Hin. rewrite !classify_control_verdict.
  assert (verdict_of helper1 (self_object w) d (control, required)
          = verdict_of helper2 (self_object w) d (control, required))
    as ->; [|done].
  unfold verdict_of. cbn [fst snd].
  destruct (d !! control) as [v|] eqn:Hlookup; [|done].
  destruct v; simpl; try done; by rewrite (Hagree _ _ _ Hin Hlookup).
Qed.

(** ** The further properties at sample runs *)

Lemma policy_without_controls_is_all_missing_witness :
  evaluate_policy_compliance raising_helper (Dict foreign_policy) sample_world
    = (Ok (set_compliance_score (PyFloat (S754_zero false)) all_missing_report),
       after_print sample_world)
  ∧ evaluate_policy_compliance raising_helper (Scalar PyNone) sample_world
    = (Ok all_missing_report, after_print sample_world)
  ∧ compliance_score all_missing_report = PyInt 0
  ∧ py_eq (PyFloat (S754_zero false)) (PyInt 0) = true.
Proof.
  apply (policy_without_controls_is_all_missing raising_helper PyNone
           default_region [] foreign_policy).
  intros control Hin.
  repeat (apply elem_of_cons in Hin as [-> | Hin]; [vm_compute; auto|]).
  by apply elem_of_nil in Hin.
Defined.

Lemma only_baseline_keys_are_read_witness :
  evaluate_policy_compliance minimum_helper (Dict matching_policy) sample_world
  = evaluate_policy_compliance minimum_helper
      (Dict (<["ExpirePasswords" := PyBool true]> matching_policy)) sample_world.
Proof.
  apply (only_baseline_keys_are_read minimum_helper sample_world matching_policy
           (<["ExpirePasswords" := PyBool true]> matching_policy)).
  intros control Hin. cbn in Hin.
  repeat (apply elem_of_cons in Hin as [-> | Hin]; [vm_compute; reflexivity|]).
  by apply elem_of_nil in Hin.
Defined.

Lemma report_lists_keep_baseline_order_witness :
  compliant_controls hard_expiry_report
    `sublist_of` (compliance_standards (self_object sample_world)).*1
  ∧ non_compliant_controls hard_expiry_report
      `sublist_of` (compliance_standards (self_object sample_world)).*1
  ∧ missing_controls hard_expiry_report
      `sublist_of` (compliance_standards (self_object sample_world)).*1
  ∧ compliant_controls hard_expiry_report
      ++ non_compliant_controls hard_expiry_report
      ++ missing_controls hard_expiry_report
      ≡ₚ (compliance_standards (self_object sample_world)).*1.
Proof.
  apply (report_lists_keep_baseline_order minimum_helper sample_world
           hard_expiry_policy hard_expiry_report (after_print sample_world)).
  vm_compute; reflexivity.
Defined.

Lemma first_helper_exception_propagates_witness :
  evaluate_policy_compliance minimum_helper (Dict malformed_policy) sample_world
    = (Raise TypeError, after_print sample_world).
Proof.
  apply (first_helper_exception_propagates minimum_helper sample_world
           malformed_policy
           [("minimum_password_length", PyInt 12);
            ("require_symbols", PyBool true);
            ("require_numbers", PyBool true);
            ("require_uppercase", PyBool true);
            ("require_lowercase", PyBool true)]
           "max_password_age" (PyInt 90)
           [("password_reuse_prevention", PyInt 12);
            ("allow_users_to_change_password", PyBool true);
            ("hard_expiry", PyBool false)]
           (PyStr "ninety") TypeError).
  - reflexivity.
  - vm_compute; reflexivity.
  - vm_compute; reflexivity.
  - discriminate.
  - reflexivity.
Defined.

Lemma no_controls_divides_by_zero_witness :
  (∀ policy, policy ≠ Scalar PyNone →
     evaluate_policy_compliance minimum_helper policy
       {| self_object := no_controls; stdout := [] |}
     = (Raise ZeroDivisionError,
        after_print {| self_object := no_controls; stdout := [] |}))
  ∧ ∃ report,
      evaluate_policy_compliance minimum_helper (Scalar PyNone)
        {| self_object := no_controls; stdout := [] |}
      = (Ok report, after_print {| self_object := no_controls; stdout := [] |})
      ∧ missing_controls report = []
      ∧ compliance_score report = PyInt 0
      ∧ overall_status report = "NON_COMPLIANT".
Proof.
  apply (no_controls_divides_by_zero minimum_helper
           {| self_object := no_controls; stdout := [] |}).
  reflexivity.
Defined.

Lemma compliant_iff_nothing_failed_witness :
  (overall_status hard_expiry_report = "COMPLIANT"
   ↔ non_compliant_controls hard_expiry_report = []
     ∧ missing_controls hard_expiry_report = [])
  ∧ (overall_status hard_expiry_report = "NON_COMPLIANT"
     ↔ non_compliant_controls hard_expiry_report ≠ []
       ∨ missing_controls hard_expiry_report ≠ [])
  ∧ (overall_status hard_expiry_report = "COMPLIANT" →
     compliant_controls hard_expiry_report = baseline_controls
     ∧ compliance_score hard_expiry_report = PyFloat (B64.of_Z 100)).
Proof.
  apply (compliant_iff_nothing_failed minimum_helper PyNone default_region []
           hard_expiry_policy hard_expiry_report (after_print sample_world)).
  vm_compute; reflexivity.
Defined.

Lemma returned_status_is_decided_witness :
  (overall_status hard_expiry_report = "COMPLIANT"
   ∨ overall_status hard_expiry_report = "NON_COMPLIANT")
  ∧ soc2_cc6_2_status hard_expiry_report = "UNKNOWN"
  ∧ nist_ia_5_status hard_expiry_report = "UNKNOWN"
  ∧ policy_type hard_expiry_report = "unknown".
Proof.
  apply (returned_status_is_decided minimum_helper (Dict hard_expiry_policy)
           sample_world hard_expiry_report (after_print sample_world)).
  vm_compute; reflexivity.
Defined.

Lemma score_orders_reports_by_count_witness :
  (length (compliant_controls hard_expiry_report)
   = length (compliant_controls matching_report) →
   compliance_score hard_expiry_report = compliance_score matching_report
   ∧ overall_status hard_expiry_report = overall_status matching_report)
  ∧ ((length (compliant_controls hard_expiry_report)
      < length (compliant_controls matching_report))%nat →
     py_ge (compliance_score hard_expiry_report)
           (compliance_score matching_report) = Ok false
     ∧ py_le (compliance_score hard_expiry_report)
             (compliance_score matching_report) = Ok true).
Proof.
  apply (score_orders_reports_by_count minimum_helper PyNone default_region
           [] [] hard_expiry_policy matching_policy
           hard_expiry_report matching_report
           (after_print sample_world) (after_print sample_world)).
  - vm_compute; reflexivity.
  - vm_compute; reflexivity.
Defined.

Lemma score_is_percentage_to_nearest_hundredth_witness :
  ∃ n,
    compliance_score hard_expiry_report = PyFloat (B64.of_decimal n 2)
    ∧ 2 * Z.abs (9 * n
                 - 10000 * Z.of_nat (length (compliant_controls hard_expiry_report)))
        ≤ 9.
Proof.
  apply (score_is_percentage_to_nearest_hundredth minimum_helper PyNone
           default_region [] hard_expiry_policy hard_expiry_report
           (after_print sample_world)).
  vm_compute; reflexivity.
Defined.

Lemma helper_is_asked_only_about_present_controls_witness :
  evaluate_policy_compliance minimum_helper (Dict foreign_policy) sample_world
  = evaluate_policy_compliance raising_helper (Dict foreign_policy) sample_world.
Proof.
  apply (helper_is_asked_only_about_present_controls minimum_helper
           raising_helper sample_world foreign_policy).
  intros control required current_value Hin Hlookup Hpresent. cbn in Hin.
  repeat (apply elem_of_cons in Hin as [Heq | Hin];
          [injection Heq as -> ->; vm_compute in Hlookup; congruence|]).
  by apply elem_of_nil in Hin.
Defined.
